(** * PPE monitoring: compliance analysis, alerting and aggregation

    A shallow embedding of [app.py]: the compliance analyzer
    ([PPEAnalyzer.analyze_ppe_compliance]), the dashboard aggregates
    ([dashboard_stats], [worker_compliance], [compliance_trends]), alert
    resolution ([resolve_alert]) and the body of the sample-data loop
    ([generate_sample_data]).

    Python floats are IEEE binary64 numbers and are modelled as such, with
    the operations of [SpecFloat] at precision 53; the three SQLite tables
    are finite maps from the integer primary key to the row. *)

From Stdlib Require Import ZArith QArith Qround String Bool Lia.
From Stdlib Require Import Floats.SpecFloat.
From stdpp Require Import gmap strings list fin_maps sorting.

Local Open Scope string_scope.
Local Open Scope Z_scope.

(* ===================================================================== *)
(** * Binary64 arithmetic *)
(* ===================================================================== *)

Module F64.

Definition prec : Z := 53.
Definition emax : Z := 1024.

Definition float : Type := spec_float.

Definition add : float → float → float := SFadd prec emax.
Definition sub : float → float → float := SFsub prec emax.
Definition mul : float → float → float := SFmul prec emax.
Definition div : float → float → float := SFdiv prec emax.

(** Conversion of an integer, rounding to nearest, ties to even. *)
Definition of_Z (z : Z) : float := binary_normalize prec emax z 0 false.

(** The correctly rounded quotient of two integers, the divisor not
    zero.  Both Python's [int / int] and the reading of a decimal string
    [d/10] are this function. *)
Definition div_Z (a b : Z) : float :=
  match a with
  | 0 => S754_zero (b <? 0)
  | _ =>
    let '(mz, ez, lz) :=
      SFdiv_core_binary prec emax (Z.abs a) 0 (Z.abs b) 0 in
    binary_round_aux prec emax (xorb (a <? 0) (b <? 0)) mz ez lz
  end.

(** [n / 2^k] rounded to the nearest integer, ties to even
    ([0 ≤ n], [0 ≤ k]). *)
Definition shr_half_even (n k : Z) : Z :=
  let q := Z.shiftr n k in
  let r := n - Z.shiftl q k in
  match 2 * r ?= Z.shiftl 1 k with
  | Lt => q
  | Eq => if Z.even q then q else q + 1
  | Gt => q + 1
  end.

(** The magnitude [m * 2^e], in tenths, rounded to the nearest integer,
    ties to even. *)
Definition tenths (m : positive) (e : Z) : Z :=
  if 0 <=? e then Z.shiftl (10 * Z.pos m) e
  else shr_half_even (10 * Z.pos m) (- e).

(** The double nearest to [d / 10], with the sign [s] ([0 ≤ d]). *)
Definition of_tenths (s : bool) (d : Z) : float :=
  match d with
  | 0 => S754_zero s
  | _ => if s then div_Z (- d) 10 else div_Z d 10
  end.

(** [float.__round__(x, 1)]: the exact binary value of [x] is rounded to
    one decimal digit, ties to even, and the decimal is read back as the
    nearest double.  Zeros, infinities and NaN round to themselves. *)
Definition round1 (x : float) : float :=
  match x with
  | S754_finite s m e => of_tenths s (tenths m e)
  | _ => x
  end.

(** Exact comparison of a float with an integer; [None] on NaN. *)
Definition compare_Z (x : float) (z : Z) : option comparison :=
  match x with
  | S754_nan => None
  | S754_infinity s => Some (if s then Lt else Gt)
  | S754_zero _ => Some (0 ?= z)
  | S754_finite s m e =>
    let sm := if s then Z.neg m else Z.pos m in
    Some (if 0 <=? e then Z.shiftl sm e ?= z
          else sm ?= Z.shiftl z (- e))
  end.

Definition is_zero (x : float) : bool :=
  match x with S754_zero _ => true | _ => false end.

Definition is_finite (x : float) : bool :=
  match x with S754_zero _ | S754_finite _ _ _ => true | _ => false end.

End F64.

(* ===================================================================== *)
(** * Python values *)
(* ===================================================================== *)

Module Py.

(** Exceptions the arithmetic of the program can raise. *)
Inductive exn : Type :=
| ZeroDivisionError
| OverflowError.

Inductive result (A : Type) : Type :=
| Ok (a : A)
| Raise (e : exn).
Global Arguments Ok {A} a.
Global Arguments Raise {A} e.

Definition bind {A B} (r : result A) (k : A → result B) : result B :=
  match r with
  | Ok a => k a
  | Raise e => Raise e
  end.

(** Numbers: [int] and [float]. *)
Inductive number : Type :=
| Int (z : Z)
| Float (f : F64.float).

(** The values a detection mapping holds. *)
Inductive value : Type :=
| VNone
| VBool (b : bool)
| VNum (n : number)
| VStr (s : string).

Definition number_truthy (n : number) : bool :=
  match n with
  | Int z => negb (z =? 0)
  | Float f => negb (F64.is_zero f)
  end.

(** Truth value testing, as [not x] and [x or y] use it. *)
Definition truthy (v : value) : bool :=
  match v with
  | VNone => false
  | VBool b => b
  | VNum n => number_truthy n
  | VStr s => negb (String.eqb s "")
  end.

(** [float(n)]: an integer too large for a double raises. *)
Definition to_float (n : number) : result F64.float :=
  match n with
  | Float f => Ok f
  | Int z =>
    let f := F64.of_Z z in
    if F64.is_finite f then Ok f else Raise OverflowError
  end.

Definition arith (fint : Z → Z → Z)
    (ffloat : F64.float → F64.float → F64.float)
    (a b : number) : result number :=
  match a, b with
  | Int x, Int y => Ok (Int (fint x y))
  | _, _ =>
    bind (to_float a) (λ x,
    bind (to_float b) (λ y,
    Ok (Float (ffloat x y))))
  end.

Definition add : number → number → result number := arith Z.add F64.add.
Definition sub : number → number → result number := arith Z.sub F64.sub.
Definition mul : number → number → result number := arith Z.mul F64.mul.

(** True division [a / b]. *)
Definition truediv (a b : number) : result number :=
  match a, b with
  | Int x, Int y =>
    if y =? 0 then Raise ZeroDivisionError
    else
      let f := F64.div_Z x y in
      if F64.is_finite f then Ok (Float f) else Raise OverflowError
  | _, _ =>
    bind (to_float a) (λ x,
    bind (to_float b) (λ y,
    if F64.is_zero y then Raise ZeroDivisionError
    else Ok (Float (F64.div x y))))
  end.

(** [round(x, 1)]: an [int] is returned as it is. *)
Definition round1 (n : number) : number :=
  match n with
  | Int z => Int z
  | Float f => Float (F64.round1 f)
  end.

(** Comparison with an integer literal; [None] on NaN. *)
Definition compare_int (a : number) (z : Z) : option comparison :=
  match a with
  | Int x => Some (x ?= z)
  | Float f => F64.compare_Z f z
  end.

(** [a < z], [a <= z] and [a >= z]. *)
Definition lt_int (a : number) (z : Z) : bool :=
  match compare_int a z with
  | Some Lt => true
  | _ => false
  end.

Definition le_int (a : number) (z : Z) : bool :=
  match compare_int a z with
  | Some (Lt | Eq) => true
  | _ => false
  end.

Definition ge_int (a : number) (z : Z) : bool :=
  match compare_int a z with
  | Some (Gt | Eq) => true
  | _ => false
  end.

(** [x or 0] where [x] is a cell of a fetched row ([None] for NULL). *)
Definition or_zero (x : option number) : number :=
  match x with
  | Some n => if number_truthy n then n else Int 0
  | None => Int 0
  end.

(** [dict.get(key, default)]. *)
Definition get (d : gmap string value) (key : string) (default : value)
    : value :=
  match d !! key with
  | Some v => v
  | None => default
  end.

(** [len(l)]. *)
Definition len {A} (l : list A) : Z := Z.of_nat (length l).

End Py.

Global Instance result_bind : MBind Py.result := λ A B k r, Py.bind r k.
Global Instance result_ret : MRet Py.result := @Py.Ok.

(* ===================================================================== *)
(** * The compliance analyzer *)
(* ===================================================================== *)

Import Py.

Record compliance : Type := Compliance {
  required_missing : list string;
  optional_missing : list string;
  compliance_score : number;
  status : string
}.

Definition required_ppe : list string := ["helmet"; "vest"; "gloves"].
Definition optional_ppe : list string := ["goggles"; "boots"; "mask"].

(** One of the two loops [for ppe in items: if not data.get(ppe, 0):
    missing.append(ppe)], started on an empty list. *)
Definition check_ppe (detection_data : gmap string value)
    (items : list string) : list string :=
  foldl (λ missing ppe,
           if negb (truthy (get detection_data ppe (VNum (Int 0))))
           then (missing ++ [ppe])%list else missing)
        [] items.

Definition analyze_ppe_compliance (detection_data : gmap string value)
    : result compliance :=
  let required := check_ppe detection_data required_ppe in
  let optional := check_ppe detection_data optional_ppe in
  rq ← truediv (Int (len required)) (Int (len required_ppe));
  rs ← sub (Int 1) rq;
  required_score ← mul rs (Int 70);
  oq ← truediv (Int (len optional)) (Int (len optional_ppe));
  os ← sub (Int 1) oq;
  optional_score ← mul os (Int 30);
  total ← add required_score optional_score;
  let score := round1 total in
  Ok {| required_missing := required;
        optional_missing := optional;
        compliance_score := score;
        status :=
          match required with
          | _ :: _ => "Non-Compliant"
          | [] =>
            if lt_int score 80 then "Partially Compliant" else "Compliant"
          end |}.

(** ** Specification-side definitions for the analyzer *)

Definition all_ppe : list string := (required_ppe ++ optional_ppe)%list.

(** An item is absent when [detection_data.get(item, 0)] is falsy. *)
Definition absent (detection_data : gmap string value) (ppe : string)
    : bool :=
  negb (truthy (get detection_data ppe (VNum (Int 0)))).

(** The flags of the example of the specification, as integers. *)
Definition int_flags (helmet vest gloves goggles boots mask : Z)
    : gmap string value :=
  <["helmet" := VNum (Int helmet)]> (<["vest" := VNum (Int vest)]>
  (<["gloves" := VNum (Int gloves)]> (<["goggles" := VNum (Int goggles)]>
  (<["boots" := VNum (Int boots)]> (<["mask" := VNum (Int mask)]> ∅))))).

(** A mapping that holds exactly the six flags, as booleans. *)
Definition bool_flags (present : string → bool) : gmap string value :=
  list_to_map ((λ ppe, (ppe, VBool (present ppe))) <$> all_ppe).

(** The six flags, all false. *)
Definition no_flags : gmap string value := bool_flags (λ _, false).

(** The mapping with its missing PPE keys filled in as false. *)
Definition fill_missing (detection_data : gmap string value)
    : gmap string value :=
  detection_data ∪ no_flags.

(** The fraction of [items] present, as a rational. *)
Definition fraction_present (detection_data : gmap string value)
    (items : list string) : Q :=
  (inject_Z (len (List.filter (λ ppe, negb (absent detection_data ppe)) items))
   / inject_Z (len items))%Q.

(** The score of the specification, exact. *)
Definition spec_score (detection_data : gmap string value) : Q :=
  (70 * fraction_present detection_data required_ppe
   + 30 * fraction_present detection_data optional_ppe)%Q.

(** Rounding of a rational to the nearest integer, ties to even. *)
Definition round_half_even (x : Q) : Z :=
  let f := Qfloor x in
  match (x - inject_Z f ?= 1 # 2)%Q with
  | Lt => f
  | Eq => if Z.even f then f else (f + 1)%Z
  | Gt => (f + 1)%Z
  end.

(** A rational rounded to one decimal, in tenths. *)
Definition round_tenths (x : Q) : Z := round_half_even (10 * x)%Q.

(** The float that [round(x, 1)] returns for a value whose decimal, to one
    place, is [t] tenths ([0 ≤ t]). *)
Definition decimal1 (t : Z) : number := Float (F64.of_tenths false t).

(** The flags of the worked example of the specification. *)
Definition example_flags : gmap string value := int_flags 1 1 0 1 1 1.

(* ===================================================================== *)
(** * The store *)
(* ===================================================================== *)

(** A [datetime]: the proleptic Gregorian ordinal of its calendar date and
    the microseconds since midnight.  The [DATETIME] columns hold the ISO
    text of such a value; [DATE(timestamp)] is its calendar date, and a
    [date] parameter is bound as the text of that date. *)
Record datetime : Type := Datetime {
  dt_date : Z;
  dt_micros : Z
}.

(** [dt - timedelta(days=i)]. *)
Definition minus_days (dt : datetime) (i : Z) : datetime :=
  {| dt_date := dt_date dt - i; dt_micros := dt_micros dt |}.

Record worker : Type := Worker {
  name : string;
  department : string;
  position : string
}.

Record detection : Type := Detection {
  worker_id : Z;
  timestamp : datetime;
  helmet : Z;
  vest : Z;
  gloves : Z;
  goggles : Z;
  boots : Z;
  mask : Z;
  confidence : F64.float;
  camera_location : string
}.

Record alert : Type := Alert {
  alert_worker_id : Z;
  alert_timestamp : datetime;
  violation_type : string;
  severity : string;
  resolved : Z;
  description : string
}.

(** The three tables, each keyed by its [INTEGER PRIMARY KEY]. *)
Record store : Type := Store {
  workers : gmap Z worker;
  ppe_detections : gmap Z detection;
  alerts : gmap Z alert
}.

Module Sql.

(** The rows of a table, each with its id.  A query without [ORDER BY]
    fixes no order. *)
Definition rows {A} (t : gmap Z A) : list (Z * A) := map_to_list t.

(** [COUNT( * )]. *)
Definition count {A} (rs : list A) : Z := Z.of_nat (length rs).

Definition sum (xs : list Z) : Z := foldr Z.add 0 xs.

(** [AVG(x)] over integers: NULL on no rows, else the integer sum, as a
    double, divided by the number of rows, as a double.  (SQLite adds the
    values up as doubles, which is the same while the sums are below 2^53,
    as they are for columns of 0 and 1.) *)
Definition avg (xs : list Z) : option F64.float :=
  match xs with
  | [] => None
  | _ :: _ => Some (F64.div (F64.of_Z (sum xs)) (F64.of_Z (count xs)))
  end.

(** [CASE WHEN c THEN 1 ELSE 0 END]. *)
Definition case10 (c : bool) : Z := if c then 1 else 0.

(** The rowid an [INSERT] assigns: one more than the largest in use, 1 on
    an empty table.  (SQLite does so while the largest is below 2^63 - 1,
    which it is in a table that only [INSERT]s without an id have filled.) *)
Definition max_rowid {A} (t : gmap Z A) : option Z :=
  map_fold (λ k _ acc,
              Some match acc with Some m => Z.max k m | None => k end)
           None t.

Definition next_rowid {A} (t : gmap Z A) : Z :=
  match max_rowid t with
  | Some m => m + 1
  | None => 1
  end.

Definition insert {A} (row : A) (t : gmap Z A) : gmap Z A :=
  <[next_rowid t := row]> t.

End Sql.

(** [helmet = 1 AND vest = 1 AND gloves = 1]. *)
Definition required_present (p : detection) : bool :=
  (helmet p =? 1) && (vest p =? 1) && (gloves p =? 1).

(** [DATE(timestamp) = ?] on the detections. *)
Definition detections_on (date : Z) (s : store) : list (Z * detection) :=
  filter (λ r, dt_date (timestamp r.2) = date) (Sql.rows (ppe_detections s)).

(** [round((x or 0) * 100, 1)] on a fetched cell. *)
Definition percent (cell : option number) : result number :=
  p ← mul (or_zero cell) (Int 100);
  mret (round1 p).

(** The loop [for x in l: out.append(f(x))]. *)
Fixpoint for_each {A B} (f : A → result B) (l : list A)
    : result (list B) :=
  match l with
  | [] => mret []
  | x :: l' =>
    y ← f x;
    ys ← for_each f l';
    mret (y :: ys)
  end.

(** ** [dashboard_stats] *)

Record ppe_usage : Type := PpeUsage {
  usage_helmet : number;
  usage_vest : number;
  usage_gloves : number;
  usage_goggles : number;
  usage_boots : number;
  usage_mask : number
}.

Record stats : Type := Stats {
  total_workers : Z;
  today_detections : Z;
  active_alerts : Z;
  overall_compliance : number;
  avg_ppe_usage : ppe_usage
}.

Definition dashboard_stats (now : datetime) (s : store) : result stats :=
  let total_workers := Sql.count (Sql.rows (workers s)) in
  let today := dt_date now in
  let todays := detections_on today s in
  let result0 := Sql.count todays in
  let avg_of (col : detection → Z) :=
    Float <$> Sql.avg ((λ r, col r.2) <$> todays) in
  let today_detections := if result0 =? 0 then 0 else result0 in
  u_helmet ← percent (avg_of helmet);
  u_vest ← percent (avg_of vest);
  u_gloves ← percent (avg_of gloves);
  u_goggles ← percent (avg_of goggles);
  u_boots ← percent (avg_of boots);
  u_mask ← percent (avg_of mask);
  let active_alerts :=
    Sql.count (filter (λ r, resolved r.2 = 0) (Sql.rows (alerts s))) in
  let compliant_detections :=
    Sql.count (filter (λ r, required_present r.2 = true)
                      (Sql.rows (ppe_detections s))) in
  overall ←
    (if 0 <? today_detections then
       q ← truediv (Int compliant_detections) (Int today_detections);
       p ← mul q (Int 100);
       mret (round1 p)
     else mret (Int 0));
  mret {| total_workers := total_workers;
          today_detections := today_detections;
          active_alerts := active_alerts;
          overall_compliance := overall;
          avg_ppe_usage :=
            {| usage_helmet := u_helmet; usage_vest := u_vest;
               usage_gloves := u_gloves; usage_goggles := u_goggles;
               usage_boots := u_boots; usage_mask := u_mask |} |}.

(** ** [worker_compliance] *)

Record worker_summary : Type := WorkerSummary {
  ws_id : Z;
  ws_name : string;
  ws_department : string;
  ws_position : string;
  ws_total_detections : Z;
  ws_helmet_rate : number;
  ws_vest_rate : number;
  ws_gloves_rate : number;
  ws_compliance_score : number
}.

(** The rows of [workers w LEFT JOIN ppe_detections p ON w.id = p.worker_id]
    for one worker: the matching detections, or one row whose [p] columns
    are all NULL. *)
Definition left_join (id : Z) (s : store) : list (option (Z * detection)) :=
  match filter (λ r, worker_id r.2 = id) (Sql.rows (ppe_detections s)) with
  | [] => [None]
  | ps => Some <$> ps
  end.

(** [CASE WHEN p.col = 1 THEN 1 ELSE 0 END] on a joined row; the comparison
    with a NULL column is not true. *)
Definition case_present (col : detection → Z) (r : option (Z * detection))
    : Z :=
  match r with
  | Some p => Sql.case10 (col p.2 =? 1)
  | None => 0
  end.

(** [COUNT(p.id)]: the rows whose [p.id] is not NULL. *)
Definition count_ids (rs : list (option (Z * detection))) : Z :=
  Sql.count (filter (λ r, is_Some r) rs).

Definition worker_row (s : store) (w : Z * worker) : result worker_summary :=
  let group := left_join w.1 s in
  let row4 := count_ids group in
  let row5 := Float <$> Sql.avg (case_present helmet <$> group) in
  let row6 := Float <$> Sql.avg (case_present vest <$> group) in
  let row7 := Float <$> Sql.avg (case_present gloves <$> group) in
  helmet_rate ← percent row5;
  vest_rate ← percent row6;
  gloves_rate ← percent row7;
  s1 ← add (or_zero row5) (or_zero row6);
  s2 ← add s1 (or_zero row7);
  q ← truediv s2 (Int 3);
  p ← mul q (Int 100);
  mret {| ws_id := w.1;
          ws_name := name w.2;
          ws_department := department w.2;
          ws_position := position w.2;
          ws_total_detections := if row4 =? 0 then 0 else row4;
          ws_helmet_rate := helmet_rate;
          ws_vest_rate := vest_rate;
          ws_gloves_rate := gloves_rate;
          ws_compliance_score := round1 p |}.

Definition worker_compliance (s : store) : result (list worker_summary) :=
  for_each (worker_row s) (Sql.rows (workers s)).

(** ** [resolve_alert] *)

Record response : Type := Response { success : bool }.

(** [SET resolved = 1] on one row. *)
Definition set_resolved (a : alert) : alert :=
  {| alert_worker_id := alert_worker_id a;
     alert_timestamp := alert_timestamp a;
     violation_type := violation_type a;
     severity := severity a;
     resolved := 1;
     description := description a |}.

(** The [UPDATE], the commit and the response, for an id that [execute]
    has bound. *)
Definition resolve_alert (alert_id : Z) (s : store) : store * response :=
  ({| workers := workers s;
      ppe_detections := ppe_detections s;
      alerts := alter set_resolved alert_id (alerts s) |},
   {| success := true |}).

(** The integers that [sqlite3] binds to a parameter: those of 64 bits with
    a sign.  On another Python int [execute] raises [OverflowError]. *)
Definition sqlite_int (z : Z) : bool := (- 2 ^ 63 <=? z) && (z <? 2 ^ 63).

(** The whole view, from the id that the route hands over: [execute] binds
    the id or raises before the [UPDATE] runs; when it raises, the commit
    is not reached and the database is as it was. *)
Definition resolve_alert_view (alert_id : Z) (s : store)
    : store * result response :=
  if sqlite_int alert_id
  then let out := resolve_alert alert_id s in (out.1, Ok out.2)
  else (s, Raise OverflowError).

(** ** [compliance_trends] *)

Record day_stat : Type := DayStat {
  date : Z;
  compliance_rate : number;
  total_detections : Z
}.

(** [range(start, stop, -1)]. *)
Definition range_down (start stop : Z) : list Z :=
  (λ k, start - Z.of_nat k) <$> seq 0 (Z.to_nat (start - stop)).

Definition trend_day (now : datetime) (s : store) (i : Z) : result day_stat :=
  let date := dt_date (minus_days now i) in
  let day_rows := detections_on date s in
  let result0 := Sql.count day_rows in
  let result1 :=
    Float <$> Sql.avg ((λ r, Sql.case10 (required_present r.2)) <$> day_rows) in
  let total := if result0 =? 0 then 0 else result0 in
  compliance_rate ←
    (if 0 <? total then percent result1 else mret (Int 0));
  mret {| date := date;
          compliance_rate := compliance_rate;
          total_detections := total |}.

Definition compliance_trends (now : datetime) (s : store)
    : result (list day_stat) :=
  for_each (trend_day now s) (range_down 6 (-1)).

(** ** [generate_sample_data] *)

(** What one turn of the loop draws from [random]. *)
Record sample : Type := Sample {
  draw_worker_id : Z;
  draw_helmet : bool;
  draw_vest : bool;
  draw_gloves : bool;
  draw_goggles : bool;
  draw_boots : bool;
  draw_mask : bool;
  draw_confidence : F64.float;
  draw_camera_location : string
}.

(** [random.choices([1, 0], weights)[0]]: the first or the second element
    of the population. *)
Definition choices_1_0 (first : bool) : Z := if first then 1 else 0.

(** [not x] on an integer. *)
Definition not_int (x : Z) : bool := negb (number_truthy (Int x)).

Definition join (sep : string) (l : list string) : string :=
  String.concat sep l.

(** The body of the loop, without the sleep. *)
Definition generate_step (now : datetime) (r : sample) (s : store) : store :=
  let worker_id := draw_worker_id r in
  let detection :=
    {| worker_id := worker_id;
       timestamp := now;
       helmet := choices_1_0 (draw_helmet r);
       vest := choices_1_0 (draw_vest r);
       gloves := choices_1_0 (draw_gloves r);
       goggles := choices_1_0 (draw_goggles r);
       boots := choices_1_0 (draw_boots r);
       mask := choices_1_0 (draw_mask r);
       confidence := draw_confidence r;
       camera_location := draw_camera_location r |} in
  let detections' := Sql.insert detection (ppe_detections s) in
  let alerts' :=
    if not_int (helmet detection) || not_int (vest detection)
       || not_int (gloves detection)
    then
      let violation_type :=
        ((if not_int (helmet detection) then ["No Helmet"] else [])
         ++ (if not_int (vest detection) then ["No Safety Vest"] else [])
         ++ (if not_int (gloves detection) then ["No Gloves"] else []))%list in
      let severity :=
        if not_int (helmet detection) then "High" else "Medium" in
      Sql.insert
        {| alert_worker_id := worker_id;
           alert_timestamp := timestamp detection;
           violation_type := join ", " violation_type;
           severity := severity;
           resolved := 0;
           description :=
             "PPE violation detected at " +:+ camera_location detection |}
        (alerts s)
    else alerts s in
  {| workers := workers s;
     ppe_detections := detections';
     alerts := alerts' |}.

(** The loop, for the turns given. *)
Definition generate_sample_data (turns : list (datetime * sample))
    (s : store) : store :=
  foldl (λ s t, generate_step t.1 t.2 s) s turns.

(** ** Specification-side definitions for the aggregates *)

(** The events of a calendar day, the events of a worker, and among some
    events those with an item, or with all three required items,
    present. *)
Definition events_on (day : Z) (s : store) : gmap Z detection :=
  filter (λ r, dt_date (timestamp r.2) = day) (ppe_detections s).

Definition events_of (id : Z) (s : store) : gmap Z detection :=
  filter (λ r, worker_id r.2 = id) (ppe_detections s).

Definition wearing (col : detection → Z) (m : gmap Z detection)
    : gmap Z detection :=
  filter (λ r, col r.2 = 1) m.

Definition fully_equipped (m : gmap Z detection) : gmap Z detection :=
  filter (λ r, required_present r.2 = true) m.

(** The fraction [c / n], as a double. *)
Definition fraction (c n : nat) : F64.float :=
  F64.div (F64.of_Z (Z.of_nat c)) (F64.of_Z (Z.of_nat n)).

(** A double that is not negative: its sign bit is clear, or it is NaN. *)
Definition nonneg (f : F64.float) : Prop :=
  match f with
  | S754_zero s | S754_infinity s | S754_finite s _ _ => s = false
  | S754_nan => True
  end.

(** A fraction as a percentage with one decimal; a zero fraction gives the
    integer 0. *)
Definition percent_of (f : F64.float) : number :=
  if F64.is_zero f then Int 0
  else Float (F64.round1 (F64.mul f (F64.of_Z 100))).

(** The compliance rate of a day: 0 on a day without events. *)
Definition day_rate (day : Z) (s : store) : number :=
  match size (events_on day s) with
  | O => Int 0
  | n => percent_of (fraction (size (fully_equipped (events_on day s))) n)
  end.

(** The presence rate of an item for a worker: zero without events. *)
Definition presence_rate (col : detection → Z) (id : Z) (s : store)
    : F64.float :=
  match size (events_of id s) with
  | O => S754_zero false
  | n => fraction (size (wearing col (events_of id s))) n
  end.

(** The mean of three rates, times 100, to one decimal. *)
Definition mean3_percent (a b c : F64.float) : number :=
  Float (F64.round1
           (F64.mul (F64.div (F64.add (F64.add a b) c) (F64.of_Z 3))
                    (F64.of_Z 100))).

(** The entry of a worker in the worker-compliance list. *)
Definition summary_of (s : store) (w : Z * worker) : worker_summary :=
  {| ws_id := w.1;
     ws_name := name w.2;
     ws_department := department w.2;
     ws_position := position w.2;
     ws_total_detections := Z.of_nat (size (events_of w.1 s));
     ws_helmet_rate := percent_of (presence_rate helmet w.1 s);
     ws_vest_rate := percent_of (presence_rate vest w.1 s);
     ws_gloves_rate := percent_of (presence_rate gloves w.1 s);
     ws_compliance_score :=
       mean3_percent (presence_rate helmet w.1 s)
                     (presence_rate vest w.1 s)
                     (presence_rate gloves w.1 s) |}.

(** Today's compliance of the specification, exact, as a percentage: the
    share of today's events with helmet, vest and gloves all present, 0
    without events today. *)
Definition spec_overall_compliance (now : datetime) (s : store) : Q :=
  let today := events_on (dt_date now) s in
  match size today with
  | O => 0%Q
  | n => (100 * (inject_Z (Z.of_nat (size (fully_equipped today)))
                 / inject_Z (Z.of_nat n)))%Q
  end.

(** An event has a required item missing. *)
Definition missing_required (p : detection) : bool :=
  (helmet p =? 0) || (vest p =? 0) || (gloves p =? 0).

(** A store with one fully equipped event the day before [stale_now] and
    one event without a helmet on the day itself. *)
Definition stale_now : datetime := {| dt_date := 739000; dt_micros := 0 |}.

Definition stale_store : store :=
  {| workers := {[ 1 := Worker "John Smith" "Construction" "Foreman" ]};
     ppe_detections :=
       {[ 1 := {| worker_id := 1;
                  timestamp := minus_days stale_now 1;
                  helmet := 1; vest := 1; gloves := 1;
                  goggles := 1; boots := 1; mask := 1;
                  confidence := F64.div_Z 9 10;
                  camera_location := "Gate A" |};
          2 := {| worker_id := 1;
                  timestamp := stale_now;
                  helmet := 0; vest := 1; gloves := 1;
                  goggles := 1; boots := 1; mask := 1;
                  confidence := F64.div_Z 9 10;
                  camera_location := "Gate A" |} ]};
     alerts := ∅ |}.

(** A store with one worker and no event. *)
Definition idle_worker : worker := Worker "Mike Brown" "Manufacturing" "Technician".

Definition idle_store : store :=
  {| workers := {[ 5 := idle_worker ]}; ppe_detections := ∅; alerts := ∅ |}.

(** A store without alerts. *)
Definition empty_store : store :=
  {| workers := ∅; ppe_detections := ∅; alerts := ∅ |}.

(* ===================================================================== *)
(** * The other operations *)
(* ===================================================================== *)

(** ** [init_db] *)

Definition sample_workers : list (Z * worker) :=
  [(1, Worker "John Smith" "Construction" "Foreman");
   (2, Worker "Maria Garcia" "Construction" "Worker");
   (3, Worker "David Chen" "Manufacturing" "Operator");
   (4, Worker "Sarah Johnson" "Warehouse" "Supervisor");
   (5, Worker "Mike Brown" "Manufacturing" "Technician")].

(** [INSERT OR IGNORE]: a row whose primary key is in use is dropped. *)
Definition insert_or_ignore {A} (t : gmap Z A) (row : Z * A) : gmap Z A :=
  match t !! row.1 with
  | Some _ => t
  | None => <[row.1 := row.2]> t
  end.

(** [CREATE TABLE IF NOT EXISTS] leaves a table that exists as it is; the
    store always has the three tables, empty before the first run. *)
Definition init_db (s : store) : store :=
  {| workers := foldl insert_or_ignore (workers s) sample_workers;
     ppe_detections := ppe_detections s;
     alerts := alerts s |}.

(** ** Joins and ordering *)

(** [t JOIN workers w ON t.worker_id = w.id]: a row whose worker id has no
    worker row is dropped. *)
Definition join_workers {A} (wid : A → Z) (s : store)
    (rs : list (Z * A)) : list (Z * A * worker) :=
  omap (λ r, (λ w, (r, w)) <$> workers s !! wid r.2) rs.

(** The order of the ISO texts of two datetimes, which is the order of the
    datetimes. *)
Definition datetime_le (a b : datetime) : Prop :=
  dt_date a < dt_date b ∨ (dt_date a = dt_date b ∧ dt_micros a ≤ dt_micros b).

Global Instance datetime_le_dec a b : Decision (datetime_le a b).
Proof. unfold datetime_le. apply _. Defined.

(** [ORDER BY timestamp DESC]; the order of rows with equal timestamps is
    not fixed by the query, here they keep the order they have. *)
Definition order_by_desc {A} (ts : A → datetime) (rs : list A) : list A :=
  merge_sort (λ a b, datetime_le (ts b) (ts a)) rs.

(** ** [recent_detections] *)

Record recent_entry : Type := RecentEntry {
  re_id : Z;
  re_worker_name : string;
  re_department : string;
  re_timestamp : datetime;
  re_helmet : bool;
  re_vest : bool;
  re_gloves : bool;
  re_goggles : bool;
  re_boots : bool;
  re_mask : bool;
  re_confidence : F64.float;
  re_camera_location : string;
  re_required_missing : list string;
  re_optional_missing : list string;
  re_compliance_score : number;
  re_status : string
}.

(** [bool(x)] on an integer column. *)
Definition py_bool (x : Z) : bool := number_truthy (Int x).

(** The dict built from a fetched row; [iso] gives the text of the
    timestamp column. *)
Definition detection_dict (iso : datetime → string)
    (r : Z * detection * worker) : gmap string value :=
  list_to_map
    [("id", VNum (Int r.1.1));
     ("worker_name", VStr (name r.2));
     ("department", VStr (department r.2));
     ("timestamp", VStr (iso (timestamp r.1.2)));
     ("helmet", VBool (py_bool (helmet r.1.2)));
     ("vest", VBool (py_bool (vest r.1.2)));
     ("gloves", VBool (py_bool (gloves r.1.2)));
     ("goggles", VBool (py_bool (goggles r.1.2)));
     ("boots", VBool (py_bool (boots r.1.2)));
     ("mask", VBool (py_bool (mask r.1.2)));
     ("confidence", VNum (Float (confidence r.1.2)));
     ("camera_location", VStr (camera_location r.1.2))].

(** One turn of the loop: the dict, analysed and updated with the
    verdict. *)
Definition recent_row (iso : datetime → string)
    (r : Z * detection * worker) : result recent_entry :=
  compliance ← analyze_ppe_compliance (detection_dict iso r);
  mret {| re_id := r.1.1;
          re_worker_name := name r.2;
          re_department := department r.2;
          re_timestamp := timestamp r.1.2;
          re_helmet := py_bool (helmet r.1.2);
          re_vest := py_bool (vest r.1.2);
          re_gloves := py_bool (gloves r.1.2);
          re_goggles := py_bool (goggles r.1.2);
          re_boots := py_bool (boots r.1.2);
          re_mask := py_bool (mask r.1.2);
          re_confidence := confidence r.1.2;
          re_camera_location := camera_location r.1.2;
          re_required_missing := required_missing compliance;
          re_optional_missing := optional_missing compliance;
          re_compliance_score := compliance_score compliance;
          re_status := status compliance |}.

(** The rows of the query: joined, newest first, at most 20. *)
Definition recent_rows (s : store) : list (Z * detection * worker) :=
  take 20 (order_by_desc (λ r, timestamp r.1.2)
             (join_workers worker_id s (Sql.rows (ppe_detections s)))).

Definition recent_detections (iso : datetime → string) (s : store)
    : result (list recent_entry) :=
  for_each (recent_row iso) (recent_rows s).

(** ** [get_alerts] *)

Record alert_entry : Type := AlertEntry {
  ae_id : Z;
  ae_worker_name : string;
  ae_timestamp : datetime;
  ae_violation_type : string;
  ae_severity : string;
  ae_description : string
}.

Definition alert_row (r : Z * alert * worker) : alert_entry :=
  {| ae_id := r.1.1;
     ae_worker_name := name r.2;
     ae_timestamp := alert_timestamp r.1.2;
     ae_violation_type := violation_type r.1.2;
     ae_severity := severity r.1.2;
     ae_description := description r.1.2 |}.

(** The rows of the query: joined, [WHERE a.resolved = 0], newest first. *)
Definition active_rows (s : store) : list (Z * alert * worker) :=
  order_by_desc (λ r, alert_timestamp r.1.2)
    (join_workers alert_worker_id s
       (filter (λ r, resolved r.2 = 0) (Sql.rows (alerts s)))).

Definition get_alerts (s : store) : list alert_entry :=
  alert_row <$> active_rows s.

(** ** Specification-side definitions for the other operations *)

(** [a <= b] on the scores, which are floats. *)
Definition score_le (a b : number) : bool :=
  match a, b with
  | Float x, Float y => SFleb x y
  | Int x, Int y => x <=? y
  | Float x, Int y => le_int a y
  | Int x, Float y => ge_int b x
  end.

(** What [random.randint(1, 5)] can return. *)
Definition valid_sample (r : sample) : Prop := 1 ≤ draw_worker_id r ≤ 5.

(** A turn draws a required item as absent. *)
Definition violating (r : sample) : bool :=
  negb (draw_helmet r && draw_vest r && draw_gloves r).

(** The unresolved alerts. *)
Definition unresolved (s : store) : gmap Z alert :=
  filter (λ r, resolved r.2 = 0) (alerts s).

(** The events with a required item not present. *)
Definition non_compliant (s : store) : gmap Z detection :=
  filter (λ r, required_present r.2 = false) (ppe_detections s).

(** The events of the seven days that end on [today]. *)
Definition events_in_week (today : Z) (s : store) : gmap Z detection :=
  filter (λ r, today - 6 ≤ dt_date (timestamp r.2) ≤ today)
         (ppe_detections s).

(** The items of a list of flags that are false, and the fraction of the
    flags that are true. *)
Definition missing_items (flags : list (string * bool)) : list string :=
  (List.filter (λ x, negb x.2) flags).*1.

Definition present_fraction (flags : list (string * bool)) : Q :=
  (inject_Z (len (List.filter snd flags)) / inject_Z (len flags))%Q.

(** The verdict on six flags, by the rules: the missing items in order, 70
    and 30 times the fractions present to one decimal, and the status. *)
Definition flags_verdict (helmet vest gloves goggles boots mask : bool)
    : compliance :=
  let required :=
    [("helmet", helmet); ("vest", vest); ("gloves", gloves)] in
  let optional :=
    [("goggles", goggles); ("boots", boots); ("mask", mask)] in
  {| required_missing := missing_items required;
     optional_missing := missing_items optional;
     compliance_score :=
       decimal1 (round_tenths (70 * present_fraction required
                               + 30 * present_fraction optional)%Q);
     status :=
       if negb (helmet && vest && gloves) then "Non-Compliant"
       else if negb (goggles || boots || mask) then "Partially Compliant"
       else "Compliant" |}.

(** The entry of a joined row in the list of recent detections. *)
Definition entry_of (r : Z * detection * worker) : recent_entry :=
  let verdict :=
    flags_verdict (py_bool (helmet r.1.2)) (py_bool (vest r.1.2))
                  (py_bool (gloves r.1.2)) (py_bool (goggles r.1.2))
                  (py_bool (boots r.1.2)) (py_bool (mask r.1.2)) in
  {| re_id := r.1.1;
     re_worker_name := name r.2;
     re_department := department r.2;
     re_timestamp := timestamp r.1.2;
     re_helmet := py_bool (helmet r.1.2);
     re_vest := py_bool (vest r.1.2);
     re_gloves := py_bool (gloves r.1.2);
     re_goggles := py_bool (goggles r.1.2);
     re_boots := py_bool (boots r.1.2);
     re_mask := py_bool (mask r.1.2);
     re_confidence := confidence r.1.2;
     re_camera_location := camera_location r.1.2;
     re_required_missing := required_missing verdict;
     re_optional_missing := optional_missing verdict;
     re_compliance_score := compliance_score verdict;
     re_status := status verdict |}.

(** The events whose worker has a row. *)
Definition known_worker_events (s : store) : gmap Z detection :=
  filter (λ r, is_Some (workers s !! worker_id r.2)) (ppe_detections s).

(** A flag is 0 or 1. *)
Definition binary (x : Z) : Prop := x = 0 ∨ x = 1.

(** A store as the program makes it: the five sample workers; events of
    those workers with binary flags; alerts of those workers, resolved or
    not, of severity High or Medium; and as many alerts as events with a
    required item not present. *)
Definition well_formed (s : store) : Prop :=
  workers s = list_to_map sample_workers
  ∧ map_Forall (λ _ p, 1 ≤ worker_id p ≤ 5
                       ∧ binary (helmet p) ∧ binary (vest p)
                       ∧ binary (gloves p) ∧ binary (goggles p)
                       ∧ binary (boots p) ∧ binary (mask p))
               (ppe_detections s)
  ∧ map_Forall (λ _ a, 1 ≤ alert_worker_id a ≤ 5
                       ∧ binary (resolved a)
                       ∧ (severity a = "High" ∨ severity a = "Medium"))
               (alerts s)
  ∧ size (alerts s) = size (non_compliant s).

(** The event and the alert that a turn of the loop builds. *)
Definition drawn_event (now : datetime) (r : sample) : detection :=
  {| worker_id := draw_worker_id r;
     timestamp := now;
     helmet := choices_1_0 (draw_helmet r);
     vest := choices_1_0 (draw_vest r);
     gloves := choices_1_0 (draw_gloves r);
     goggles := choices_1_0 (draw_goggles r);
     boots := choices_1_0 (draw_boots r);
     mask := choices_1_0 (draw_mask r);
     confidence := draw_confidence r;
     camera_location := draw_camera_location r |}.

Definition drawn_alert (now : datetime) (r : sample) : alert :=
  {| alert_worker_id := draw_worker_id r;
     alert_timestamp := now;
     violation_type :=
       join ", "
         ((if draw_helmet r then [] else ["No Helmet"])
          ++ (if draw_vest r then [] else ["No Safety Vest"])
          ++ (if draw_gloves r then [] else ["No Gloves"]))%list;
     severity := if draw_helmet r then "Medium" else "High";
     resolved := 0;
     description :=
       "PPE violation detected at " +:+ draw_camera_location r |}.

(** A turn for worker 3, without gloves. *)
Definition no_gloves_sample : sample :=
  {| draw_worker_id := 3;
     draw_helmet := true; draw_vest := true; draw_gloves := false;
     draw_goggles := true; draw_boots := true; draw_mask := false;
     draw_confidence := F64.div_Z 91 100;
     draw_camera_location := "Gate B" |}.

(** The database after initialisation and that turn. *)
Definition no_gloves_store : store :=
  generate_step stale_now no_gloves_sample (init_db empty_store).

(** The states the program reaches: the database is initialised from
    nothing, then the loop turns, alerts are resolved and the program is
    started again on the database it left, in any order. *)
Inductive reachable : store → Prop :=
| reachable_init : reachable (init_db empty_store)
| reachable_step now r s :
    reachable s → valid_sample r → reachable (generate_step now r s)
| reachable_resolve alert_id s :
    reachable s → reachable (resolve_alert alert_id s).1
| reachable_restart s :
    reachable s → reachable (init_db s).

(* ===================================================================== *)
(** * The arithmetic model on known values *)
(* ===================================================================== *)

(** 76.7 is the double 5397282678426829 * 2^-46. *)
Example decimal_76_7 :
  decimal1 767 = Float (S754_finite false 5397282678426829 (-46)).
Proof. reflexivity. Qed.

(** [1 / 3] and [2 / 3] as Python computes them. *)
Example third : F64.div_Z 1 3 = S754_finite false 6004799503160661 (-54).
Proof. reflexivity. Qed.

Example two_thirds : F64.div_Z 2 3 = S754_finite false 6004799503160661 (-53).
Proof. reflexivity. Qed.

(** [round(0.25, 1) == 0.2] and [round(0.75, 1) == 0.8]: ties go to the
    even digit. *)
Example round_quarter :
  F64.round1 (F64.div_Z 1 4) = F64.div_Z 2 10
  ∧ F64.round1 (F64.div_Z 3 4) = F64.div_Z 8 10.
Proof. split; reflexivity. Qed.

(** [round(0.15, 1) == 0.1]: the double below 0.15 is not a tie. *)
Example round_0_15 : F64.round1 (F64.div_Z 15 100) = F64.div_Z 1 10.
Proof. reflexivity. Qed.

(** [(1 - 2 / 3) * 30 + 70] is 80.0 exactly after rounding. *)
Example eighty :
  F64.round1
    (F64.add (F64.mul (F64.sub (F64.of_Z 1) (F64.div_Z 0 3)) (F64.of_Z 70))
             (F64.mul (F64.sub (F64.of_Z 1) (F64.div_Z 2 3)) (F64.of_Z 30)))
  = F64.of_Z 80.
Proof. reflexivity. Qed.

(* ===================================================================== *)
(** * The analyzer: proofs *)
(* ===================================================================== *)

Section Analyzer.

Implicit Types d : gmap string value.

Lemma check_ppe_acc d (items acc : list string) :
  foldl (λ missing ppe,
           if negb (truthy (get d ppe (VNum (Int 0))))
           then (missing ++ [ppe])%list else missing) acc items
  = (acc ++ List.filter (absent d) items)%list.
Proof.
  revert acc. induction items as [|ppe items IH]; intros acc; simpl.
  - by rewrite app_nil_r.
  - rewrite IH. unfold absent at 2.
    destruct (negb (truthy (get d ppe (VNum (Int 0))))); [|done].
    by rewrite <- app_assoc.
Qed.

(** The loops collect the absent items, in the order of the list. *)
Lemma check_ppe_filter d items :
  check_ppe d items = List.filter (absent d) items.
Proof. unfold check_ppe. by rewrite check_ppe_acc. Qed.

(** The verdict depends on the mapping through the six truth values
    only. *)
Lemma analyze_ext d d' :
  Forall (λ ppe, absent d ppe = absent d' ppe) all_ppe →
  analyze_ppe_compliance d = analyze_ppe_compliance d'.
Proof.
  intros H. unfold analyze_ppe_compliance.
  rewrite !check_ppe_filter.
  assert (List.filter (absent d) required_ppe
          = List.filter (absent d') required_ppe) as ->.
  { apply List.filter_ext_in. intros k Hk.
    rewrite Forall_forall in H. apply H.
    apply list_elem_of_In, in_or_app. by left. }
  assert (List.filter (absent d) optional_ppe
          = List.filter (absent d') optional_ppe) as ->.
  { apply List.filter_ext_in. intros k Hk.
    rewrite Forall_forall in H. apply H.
    apply list_elem_of_In, in_or_app. by right. }
  done.
Qed.

Lemma absent_bool_flags present :
  Forall (λ ppe, absent (bool_flags present) ppe = negb (present ppe))
         all_ppe.
Proof. repeat constructor. Qed.

(** Every mapping has the verdict of the six booleans it stands for. *)
Lemma analyze_bool_flags d :
  analyze_ppe_compliance d
  = analyze_ppe_compliance (bool_flags (λ ppe, negb (absent d ppe))).
Proof.
  apply analyze_ext.
  eapply Forall_impl; [apply absent_bool_flags|].
  simpl. intros k ->. by rewrite negb_involutive.
Qed.

(** Case analysis on the six truth values a verdict depends on. *)
Ltac six_cases d :=
  rewrite (analyze_bool_flags d);
  unfold bool_flags, spec_score, fraction_present, all_ppe,
    required_ppe, optional_ppe;
  cbn [fmap list_fmap app List.filter existsb];
  generalize (absent d "helmet"), (absent d "vest"), (absent d "gloves"),
    (absent d "goggles"), (absent d "boots"), (absent d "mask");
  intros [] [] [] [] [] [].

(** C3 as stated fails: on the flags of the example the status is not
    "Partially Compliant", since gloves is a required item. *)
Lemma example_status_not_partial :
  ¬ ∃ c, analyze_ppe_compliance example_flags = Ok c
         ∧ required_missing c = ["gloves"]
         ∧ compliance_score c = decimal1 767
         ∧ status c = "Partially Compliant".
Proof. intros (c & Hc & _ & _ & Hs). vm_compute in Hc. by simplify_eq. Qed.

(** C3, amended: on the flags {helmet:1, vest:1, gloves:0, goggles:1,
    boots:1, mask:1} the analyzer returns required_missing = [gloves],
    nothing optional missing, the score 76.7 and the status
    "Non-Compliant". *)
Theorem example_verdict :
  analyze_ppe_compliance example_flags
  = Ok {| required_missing := ["gloves"];
          optional_missing := [];
          compliance_score := decimal1 767;
          status := "Non-Compliant" |}.
Proof. vm_compute. reflexivity. Qed.

(** C4: for every mapping the status is "Non-Compliant" exactly when one
    of helmet, vest and gloves is absent; with none absent it is
    "Partially Compliant" exactly when the score is below 80, and
    "Compliant" otherwise. *)
Theorem status_rule d :
  ∃ c, analyze_ppe_compliance d = Ok c
       ∧ (status c = "Non-Compliant"
          ↔ existsb (absent d) required_ppe = true)
       ∧ status c
         = (if existsb (absent d) required_ppe then "Non-Compliant"
            else if lt_int (compliance_score c) 80
                 then "Partially Compliant"
                 else "Compliant").
Proof.
  six_cases d; vm_compute; (eexists; split; [reflexivity|]);
    (split; [split; congruence|reflexivity]).
Qed.

(** C5: for every mapping the score is 70 times the fraction of required
    items present plus 30 times the fraction of optional items present,
    rounded to one decimal, and lies between 0 and 100. *)
Theorem compliance_score_formula d :
  ∃ c, analyze_ppe_compliance d = Ok c
       ∧ compliance_score c = decimal1 (round_tenths (spec_score d))
       ∧ ge_int (compliance_score c) 0 = true
       ∧ le_int (compliance_score c) 100 = true.
Proof.
  six_cases d; vm_compute; (eexists; split; [reflexivity|]);
    repeat split.
Qed.

(** A key that is missing counts as an absent item. *)
Lemma absent_lookup d ppe :
  absent d ppe
  = match d !! ppe with
    | Some v => negb (truthy v)
    | None => true
    end.
Proof. unfold absent, get. by destruct (d !! ppe). Qed.

Lemma fill_missing_lookup d ppe :
  fill_missing d !! ppe
  = match d !! ppe with
    | Some v => Some v
    | None => no_flags !! ppe
    end.
Proof.
  unfold fill_missing. rewrite lookup_union. by destruct (d !! ppe), (_ !! _).
Qed.

Lemma absent_fill_missing d :
  Forall (λ ppe, absent d ppe = absent (fill_missing d) ppe) all_ppe.
Proof.
  repeat constructor;
    rewrite !absent_lookup, fill_missing_lookup; by destruct (d !! _).
Qed.

(** C9: for every mapping, with any of the six keys missing, the
    analyzer returns a verdict and raises nothing; the missing lists are
    the items absent, a missing key counting as absent; and the verdict
    is that of the mapping with its missing keys filled in as false. *)
Theorem missing_keys_absent d :
  (∃ c, analyze_ppe_compliance d = Ok c
        ∧ required_missing c = List.filter (absent d) required_ppe
        ∧ optional_missing c = List.filter (absent d) optional_ppe)
  ∧ (∀ ppe, absent d ppe
            = match d !! ppe with
              | Some v => negb (truthy v)
              | None => true
              end)
  ∧ analyze_ppe_compliance d = analyze_ppe_compliance (fill_missing d).
Proof.
  split; [|split].
  - six_cases d; vm_compute; eexists; repeat split.
  - apply absent_lookup.
  - apply analyze_ext, absent_fill_missing.
Qed.

End Analyzer.

(* ===================================================================== *)
(** * Signs of computed doubles *)
(* ===================================================================== *)

Section Signs.

Lemma binary_round_aux_nonneg m e l :
  nonneg (binary_round_aux F64.prec F64.emax false m e l).
Proof.
  unfold binary_round_aux.
  destruct (shr_fexp _ _ m e l) as [mrs e'].
  destruct (shr_fexp _ _ _ e' loc_Exact) as [mrs' e''].
  destruct (shr_m mrs'); [done| |done].
  by destruct (_ <=? _).
Qed.

Lemma of_Z_nonneg z : 0 ≤ z → nonneg (F64.of_Z z).
Proof.
  intros Hz. destruct z as [|m|m]; [done| |lia].
  unfold F64.of_Z, binary_normalize, binary_round.
  destruct (shl_align _ _ _) as [mz ez].
  apply binary_round_aux_nonneg.
Qed.

Lemma div_nonneg x y : nonneg x → nonneg y → nonneg (F64.div x y).
Proof.
  destruct x as [sx|sx| |sx mx ex], y as [sy|sy| |sy my ey];
    simpl; intros Hx Hy; subst; try done.
  unfold F64.div, SFdiv.
  destruct (SFdiv_core_binary _ _ _ _ _ _) as [[mz ez] lz].
  apply binary_round_aux_nonneg.
Qed.

Lemma fraction_nonneg c n : nonneg (fraction c n).
Proof. apply div_nonneg; apply of_Z_nonneg; lia. Qed.

Lemma nonneg_is_zero f :
  nonneg f → F64.is_zero f = true → f = S754_zero false.
Proof. destruct f; simpl; intros; by subst. Qed.

End Signs.

(* ===================================================================== *)
(** * Queries: counting rows *)
(* ===================================================================== *)

Section Queries.

Context {A : Type}.
Implicit Types t : gmap Z A.

(** Selecting rows of a table and the submap of the selected rows hold
    the same rows. *)
Lemma rows_filter (P : Z * A → Prop) `{!∀ x, Decision (P x)} t :
  Sql.rows (filter P t) ≡ₚ filter P (Sql.rows t).
Proof.
  unfold Sql.rows. rewrite map_filter_alt. apply map_to_list_to_map.
  eapply sublist_NoDup; [apply (NoDup_fst_map_to_list t)|].
  apply fmap_sublist, sublist_filter.
Qed.

Lemma count_rows t : Sql.count (Sql.rows t) = Z.of_nat (size t).
Proof. unfold Sql.count, Sql.rows. by rewrite length_map_to_list. Qed.

Lemma length_filter_rows (P : Z * A → Prop) `{!∀ x, Decision (P x)} t :
  length (filter P (Sql.rows t)) = size (filter P t).
Proof.
  rewrite <- rows_filter. unfold Sql.rows. by rewrite length_map_to_list.
Qed.

Lemma length_filter_filter_rows (P Q : Z * A → Prop)
    `{!∀ x, Decision (P x), !∀ x, Decision (Q x)} t :
  length (filter P (filter Q (Sql.rows t))) = size (filter P (filter Q t)).
Proof. by rewrite <- rows_filter, length_filter_rows. Qed.

(** Summing a 0/1 case expression counts the rows of the case. *)
Lemma sum_case10 {B} (P : B → Prop) `{!∀ x, Decision (P x)}
    (b : B → bool) (l : list B) :
  (∀ x, b x = true ↔ P x) →
  Sql.sum ((λ r, Sql.case10 (b r)) <$> l)
  = Z.of_nat (length (filter P l)).
Proof.
  intros Hb. induction l as [|x l IH]; [done|].
  rewrite fmap_cons, filter_cons. simpl Sql.sum. rewrite IH.
  destruct (b x) eqn:Hx.
  - rewrite decide_True by by apply Hb. simpl. lia.
  - rewrite decide_False; [simpl; lia|].
    intros HP. apply Hb in HP. congruence.
Qed.

Lemma avg_case10 {B} (P : B → Prop) `{!∀ x, Decision (P x)}
    (b : B → bool) (x : B) (l : list B) :
  (∀ x, b x = true ↔ P x) →
  Sql.avg ((λ r, Sql.case10 (b r)) <$> x :: l)
  = Some (fraction (length (filter P (x :: l))) (length (x :: l))).
Proof.
  intros Hb. unfold fraction.
  rewrite <- (sum_case10 P b (x :: l) Hb), fmap_cons.
  unfold Sql.avg, Sql.count. simpl length. by rewrite length_fmap.
Qed.

End Queries.

Section Arithmetic.

Lemma percent_None : percent None = Ok (Int 0).
Proof. reflexivity. Qed.

Lemma percent_float f : percent (Some (Float f)) = Ok (percent_of f).
Proof.
  unfold percent, percent_of, or_zero, number_truthy.
  destruct (F64.is_zero f); reflexivity.
Qed.

(** The loop succeeds when each turn does. *)
Lemma for_each_ok {A B} (f : A → result B) (g : A → B) (l : list A) :
  (∀ x, f x = Ok (g x)) → for_each f l = Ok (g <$> l).
Proof.
  intros Hf. induction l as [|x l IH]; [done|].
  simpl. by rewrite Hf, IH.
Qed.

(** The aggregate score of a worker, in continuation form: with rates
    that are not negative, the integer 0 that [or 0] puts for a zero rate
    changes nothing. *)
Lemma mean_score {R} (a b c : F64.float) (k : number → result R) :
  nonneg a → nonneg b → nonneg c →
  (s1 ← add (or_zero (Some (Float a))) (or_zero (Some (Float b)));
   s2 ← add s1 (or_zero (Some (Float c)));
   q ← truediv s2 (Int 3);
   p ← mul q (Int 100);
   k (round1 p))
  = k (mean3_percent a b c).
Proof.
  destruct a as [[]|[]| |[]], b as [[]|[]| |[]], c as [[]|[]| |[]];
    simpl; intros; try done; reflexivity.
Qed.

End Arithmetic.

(* ===================================================================== *)
(** * The aggregates: proofs *)
(* ===================================================================== *)

Section Aggregates.

Implicit Types s : store.

Lemma detections_on_length day s :
  length (detections_on day s) = size (events_on day s).
Proof. apply length_filter_rows. Qed.

(** One turn of the trends loop. *)
Lemma trend_day_spec now s i :
  trend_day now s i
  = Ok {| date := dt_date now - i;
          compliance_rate := day_rate (dt_date now - i) s;
          total_detections :=
            Z.of_nat (size (events_on (dt_date now - i) s)) |}.
Proof.
  unfold trend_day, day_rate. simpl dt_date.
  set (day := dt_date now - i).
  assert (size (fully_equipped (events_on day s))
          = length (filter (λ r, required_present r.2 = true)
                           (detections_on day s))) as ->.
  { symmetry. apply length_filter_filter_rows. }
  rewrite <- detections_on_length.
  destruct (detections_on day s) as [|r rs]; [reflexivity|].
  rewrite (avg_case10 (λ r, required_present r.2 = true)
                      (λ r, required_present r.2)) by done.
  assert (0 < Sql.count (r :: rs)) as Hpos
    by (unfold Sql.count; simpl length; lia).
  destruct (Sql.count (r :: rs) =? 0) eqn:E0; [lia|].
  rewrite (proj2 (Z.ltb_lt _ _) Hpos).
  change (Float <$> Some ?f) with (Some (Float f)).
  rewrite percent_float. reflexivity.
Qed.

(** One row of the worker-compliance query. *)
Lemma worker_row_spec s w : worker_row s w = Ok (summary_of s w).
Proof.
  unfold worker_row, summary_of, presence_rate, left_join.
  assert (∀ col, size (wearing col (events_of w.1 s))
                 = length (filter (λ r, col r.2 = 1)
                     (filter (λ r, worker_id r.2 = w.1)
                             (Sql.rows (ppe_detections s))))) as Hcol.
  { intros col. symmetry. apply length_filter_filter_rows. }
  rewrite !Hcol. unfold events_of. rewrite <- length_filter_rows.
  destruct (filter _ (Sql.rows (ppe_detections s))) as [|p ps];
    [reflexivity|].
  assert (∀ col, Sql.avg (case_present col <$> (Some <$> p :: ps))
                 = Some (fraction
                           (length (filter (λ r, col r.2 = 1) (p :: ps)))
                           (length (p :: ps)))) as Havg.
  { intros col. rewrite <- list_fmap_compose.
    apply (avg_case10 (λ r, col r.2 = 1) (λ r, col r.2 =? 1)).
    intros x. apply Z.eqb_eq. }
  rewrite !Havg. clear Havg Hcol.
  change (Float <$> Some ?f) with (Some (Float f)).
  rewrite !percent_float.
  assert (count_ids (Some <$> p :: ps) = Z.of_nat (length (p :: ps)))
    as ->.
  { unfold count_ids, Sql.count. f_equal.
    rewrite <- (length_fmap Some (p :: ps)). f_equal.
    generalize (p :: ps). intros l. induction l as [|x l IH]; [done|].
    rewrite fmap_cons, filter_cons_True by by eexists. by rewrite IH. }
  destruct (Z.of_nat (length (p :: ps)) =? 0) eqn:E0;
    [apply Z.eqb_eq in E0; simpl length in E0; lia|].
  set (n := length (p :: ps)).
  set (fh := fraction (length (filter (λ r, helmet r.2 = 1) (p :: ps))) n).
  set (fv := fraction (length (filter (λ r, vest r.2 = 1) (p :: ps))) n).
  set (fg := fraction (length (filter (λ r, gloves r.2 = 1) (p :: ps))) n).
  exact (mean_score fh fv fg
           (λ x, Ok {| ws_id := w.1;
                       ws_name := name w.2;
                       ws_department := department w.2;
                       ws_position := position w.2;
                       ws_total_detections := Z.of_nat n;
                       ws_helmet_rate := percent_of fh;
                       ws_vest_rate := percent_of fv;
                       ws_gloves_rate := percent_of fg;
                       ws_compliance_score := x |})
           (fraction_nonneg _ _) (fraction_nonneg _ _)
           (fraction_nonneg _ _)).
Qed.

(** C7: for every store and date the trends operation returns seven
    entries, one per day of the week that ends today, oldest first; each
    carries the number of events of its day and the share of them with
    helmet, vest and gloves all present, as a percentage to one decimal;
    a day without events has total_detections 0 and compliance_rate 0. *)
Theorem trends_seven_days now s :
  ∃ l, compliance_trends now s = Ok l
       ∧ length l = 7%nat
       ∧ date <$> l = (λ k, dt_date now - 6 + Z.of_nat k) <$> seq 0 7
       ∧ Forall (λ e,
           total_detections e = Z.of_nat (size (events_on (date e) s))
           ∧ compliance_rate e
             = match size (events_on (date e) s) with
               | O => Int 0
               | n => percent_of
                        (fraction
                           (size (fully_equipped (events_on (date e) s)))
                           n)
               end) l.
Proof.
  eexists. split.
  { unfold compliance_trends. apply for_each_ok, trend_day_spec. }
  change (range_down 6 (-1)) with [6; 5; 4; 3; 2; 1; 0].
  split; [reflexivity|]. split.
  - cbn [fmap list_fmap seq date]. repeat (f_equal; try lia).
  - repeat constructor.
Qed.

(** C8: for every store the worker-compliance operation returns one
    entry per worker of the workers table; an entry carries the number of
    events of the worker and the presence rates of helmet, vest and
    gloves as percentages, and its compliance_score is the mean of the
    three rates times 100, to one decimal; a worker without events has
    total_detections 0 and the three rates 0. *)
Theorem worker_compliance_all s :
  worker_compliance s = Ok (summary_of s <$> Sql.rows (workers s))
  ∧ NoDup (Sql.rows (workers s)).*1
  ∧ (∀ id w, (id, w) ∈ Sql.rows (workers s) ↔ workers s !! id = Some w)
  ∧ (∀ w, ws_total_detections (summary_of s w)
          = Z.of_nat (size (events_of w.1 s))
          ∧ ws_compliance_score (summary_of s w)
            = mean3_percent (presence_rate helmet w.1 s)
                            (presence_rate vest w.1 s)
                            (presence_rate gloves w.1 s))
  ∧ (∀ w, size (events_of w.1 s) = 0%nat →
          ws_total_detections (summary_of s w) = 0
          ∧ ws_helmet_rate (summary_of s w) = Int 0
          ∧ ws_vest_rate (summary_of s w) = Int 0
          ∧ ws_gloves_rate (summary_of s w) = Int 0).
Proof.
  split; [apply for_each_ok, worker_row_spec|].
  split; [apply NoDup_fst_map_to_list|].
  split; [intros id w; apply elem_of_map_to_list|].
  split; [done|].
  intros w Hw. unfold summary_of, presence_rate. simpl. by rewrite Hw.
Qed.

(** The theorem at a store whose only worker has no event. *)
Lemma worker_compliance_all_witness :
  size (events_of 5 idle_store) = 0%nat
  ∧ worker_compliance idle_store = Ok [summary_of idle_store (5, idle_worker)]
  ∧ ws_total_detections (summary_of idle_store (5, idle_worker)) = 0
  ∧ ws_helmet_rate (summary_of idle_store (5, idle_worker)) = Int 0.
Proof.
  destruct (worker_compliance_all idle_store) as (Hl & _ & _ & _ & Hz).
  split; [reflexivity|]. split; [exact Hl|].
  destruct (Hz (5, idle_worker) eq_refl) as (Ht & Hh & _).
  split; [exact Ht|exact Hh].
Defined.

(** Without events today the dashboard divides nothing and reports 0. *)
Lemma dashboard_no_events_today now s :
  size (events_on (dt_date now) s) = 0%nat →
  ∃ st, dashboard_stats now s = Ok st
        ∧ today_detections st = 0
        ∧ overall_compliance st = Int 0.
Proof.
  intros H0. unfold dashboard_stats.
  rewrite <- detections_on_length in H0.
  destruct (detections_on (dt_date now) s); [|done].
  eexists. split; [reflexivity|]. done.
Qed.

(** C1, the code at a failing input: with one fully equipped event
    yesterday and one event without a helmet today, none of today's
    events is compliant, the specification's rate is 0.0, and
    dashboard_stats reports 100.0: the compliant events are counted over
    all days and divided by the number of today's events. *)
Theorem dashboard_counts_all_days :
  round_tenths (spec_overall_compliance stale_now stale_store) = 0
  ∧ ∃ st, dashboard_stats stale_now stale_store = Ok st
          ∧ today_detections st = 1
          ∧ overall_compliance st = decimal1 1000.
Proof. split; [by vm_compute|]. vm_compute. eexists. by repeat split. Qed.

End Aggregates.

(* ===================================================================== *)
(** * Alerts: proofs *)
(* ===================================================================== *)

Section Alerts.

Implicit Types s : store.

(** Every rowid in use is at most the largest one. *)
Lemma max_rowid_spec {A} (t : gmap Z A) :
  match Sql.max_rowid t with
  | Some m => ∀ k, is_Some (t !! k) → k ≤ m
  | None => t = ∅
  end.
Proof.
  unfold Sql.max_rowid.
  apply (map_fold_weak_ind
           (λ r t, match r with
                   | Some m => ∀ k, is_Some (t !! k) → k ≤ m
                   | None => t = ∅
                   end)); [done|].
  intros i x m r Hi IH k Hk.
  destruct (decide (k = i)) as [->|Hne].
  - destruct r; lia.
  - rewrite lookup_insert_ne in Hk by done.
    destruct r as [mx|].
    + specialize (IH k Hk). lia.
    + subst m. rewrite lookup_empty in Hk. by destruct Hk.
Qed.

(** The rowid of an insert is not in use. *)
Lemma next_rowid_fresh {A} (t : gmap Z A) : t !! Sql.next_rowid t = None.
Proof.
  unfold Sql.next_rowid. pose proof (max_rowid_spec t) as H.
  destruct (Sql.max_rowid t) as [m|]; [|by subst t].
  destruct (t !! (m + 1)) eqn:E; [|done].
  specialize (H (m + 1) (ex_intro _ _ E)). lia.
Qed.

Lemma set_resolved_idemp a : set_resolved (set_resolved a) = set_resolved a.
Proof. done. Qed.

Lemma sqlite_int_spec z : sqlite_int z = true ↔ - 2 ^ 63 ≤ z < 2 ^ 63.
Proof. unfold sqlite_int. rewrite andb_true_iff, Z.leb_le, Z.ltb_lt. done. Qed.

(** The largest and the smallest id that is bound, and their neighbours. *)
Example sqlite_int_bounds :
  sqlite_int (2 ^ 63 - 1) = true ∧ sqlite_int (2 ^ 63) = false
  ∧ sqlite_int (- 2 ^ 63) = true ∧ sqlite_int (- 2 ^ 63 - 1) = false.
Proof. repeat split. Qed.

(** The id 2^63, which the route accepts, is not bound. *)
Example resolve_out_of_range :
  resolve_alert_view (2 ^ 63) stale_store = (stale_store, Raise OverflowError).
Proof. reflexivity. Qed.

(** On an id that is bound the view does what [resolve_alert] does, on
    another it leaves the store. *)
Lemma resolve_alert_view_store alert_id s :
  (resolve_alert_view alert_id s).1
  = if sqlite_int alert_id then (resolve_alert alert_id s).1 else s.
Proof. unfold resolve_alert_view. by destruct (sqlite_int alert_id). Qed.

(** C2 as stated fails: on a store without alerts the resolve operation
    returns success: true for the id 7, which no alert has, so it does not
    return success: false exactly when no alert has the id. *)
Lemma resolve_unknown_id_succeeds :
  (resolve_alert_view 7 empty_store).2 = Ok {| success := true |}
  ∧ ¬ ((resolve_alert_view 7 empty_store).2 = Ok {| success := false |}
       ↔ alerts empty_store !! 7 = None).
Proof.
  split; [reflexivity|]. intros [_ H]. specialize (H eq_refl).
  discriminate H.
Qed.

(** C2, amended: the resolve operation never returns success: false.  For
    every store and every alert id of 64 bits with a sign, which every id
    of a stored alert is, it returns success: true, whether or not an
    alert has that id; resolving the same id twice returns success: true
    both times, the second call leaves the store as the first left it, and
    an alert with that id has resolved = 1 after each.  For any other id
    it raises OverflowError and leaves the store as it was. *)
Theorem resolve_always_succeeds alert_id s :
  let out := resolve_alert_view alert_id s in
  let again := resolve_alert_view alert_id out.1 in
  out.2 ≠ Ok {| success := false |}
  ∧ if sqlite_int alert_id
    then out.2 = Ok {| success := true |}
         ∧ again.2 = Ok {| success := true |}
         ∧ again.1 = out.1
         ∧ resolved <$> alerts out.1 !! alert_id
           = (λ _, 1) <$> alerts s !! alert_id
    else out = (s, Raise OverflowError).
Proof.
  unfold resolve_alert_view.
  destruct (sqlite_int alert_id); cbn [fst snd resolve_alert alerts];
    (split; [done|]); [|done].
  split; [done|]. split; [done|]. split.
  - f_equal. rewrite alter_alter_eq. apply alter_ext.
    intros a _. apply set_resolved_idemp.
  - rewrite lookup_alter_eq. by destruct (alerts s !! alert_id).
Qed.

(** C10: for every alert id and store the resolve operation leaves the
    workers and the detection events as they are, leaves every alert with
    another id as it is, and on an alert with that id changes nothing but
    resolved, which becomes 1. *)
Theorem resolve_frame alert_id s :
  let s' := (resolve_alert alert_id s).1 in
  workers s' = workers s
  ∧ ppe_detections s' = ppe_detections s
  ∧ (∀ k, alerts s' !! k
          = if decide (k = alert_id)
            then set_resolved <$> alerts s !! k
            else alerts s !! k)
  ∧ (∀ a, alert_worker_id (set_resolved a) = alert_worker_id a
          ∧ alert_timestamp (set_resolved a) = alert_timestamp a
          ∧ violation_type (set_resolved a) = violation_type a
          ∧ severity (set_resolved a) = severity a
          ∧ description (set_resolved a) = description a
          ∧ resolved (set_resolved a) = 1).
Proof.
  simpl. split; [done|]. split; [done|]. split; [|done].
  intros k. case_decide as Hk.
  - subst k. apply lookup_alter_eq.
  - by apply lookup_alter_ne.
Qed.

(** C6: one turn of the loop stores its event under a fresh id; when the
    event has helmet, vest or gloves absent it stores one alert under a
    fresh id, for the worker and time of the event, unresolved, with
    severity "High" when helmet is absent and "Medium" otherwise; when all
    three are present the alerts are as they were. *)
Theorem alert_iff_required_missing now r s :
  let s' := generate_step now r s in
  ∃ p, ppe_detections s'
       = <[Sql.next_rowid (ppe_detections s) := p]> (ppe_detections s)
       ∧ ppe_detections s !! Sql.next_rowid (ppe_detections s) = None
       ∧ helmet p = choices_1_0 (draw_helmet r)
       ∧ vest p = choices_1_0 (draw_vest r)
       ∧ gloves p = choices_1_0 (draw_gloves r)
       ∧ if missing_required p
         then ∃ a, alerts s'
                   = <[Sql.next_rowid (alerts s) := a]> (alerts s)
                   ∧ alerts s !! Sql.next_rowid (alerts s) = None
                   ∧ alert_worker_id a = worker_id p
                   ∧ alert_timestamp a = timestamp p
                   ∧ resolved a = 0
                   ∧ severity a
                     = (if helmet p =? 0 then "High" else "Medium")
                   ∧ (severity a = "High" ↔ helmet p = 0)
         else alerts s' = alerts s.
Proof.
  simpl. eexists. split; [reflexivity|].
  split; [apply next_rowid_fresh|]. simpl.
  do 3 (split; [reflexivity|]).
  unfold missing_required, generate_step, Sql.insert. simpl.
  destruct (draw_helmet r), (draw_vest r), (draw_gloves r); simpl;
    try reflexivity;
    (eexists; split; [reflexivity|]; split; [apply next_rowid_fresh|];
     simpl; repeat split; try done; try lia).
Qed.

End Alerts.

(* ===================================================================== *)
(** * More on the analyzer *)
(* ===================================================================== *)

Section Verdicts.

Implicit Types d : gmap string value.

(** Case analysis on the truth values of the six items in two mappings. *)
Ltac flag_cases d :=
  rewrite (analyze_bool_flags d);
  unfold bool_flags, all_ppe, required_ppe, optional_ppe;
  cbn [fmap list_fmap app List.filter existsb forallb];
  generalize (absent d "helmet"), (absent d "vest"), (absent d "gloves"),
    (absent d "goggles"), (absent d "boots"), (absent d "mask").

(** The verdict is a function of the truth values of the six items: other
    keys, and which truthy or falsy value an item has, change nothing. *)
Theorem verdict_depends_on_truth_values d d' :
  (∀ ppe, ppe ∈ all_ppe → absent d ppe = absent d' ppe) →
  analyze_ppe_compliance d = analyze_ppe_compliance d'.
Proof. intros H. apply analyze_ext. by apply Forall_forall. Qed.

(** At the flags of the example, against the same flags as booleans with a
    confidence added. *)
Lemma verdict_depends_on_truth_values_witness :
  analyze_ppe_compliance example_flags
  = analyze_ppe_compliance
      (<["confidence" := VNum (Float (F64.div_Z 9 10))]>
         (bool_flags (λ ppe, negb (String.eqb ppe "gloves")))).
Proof.
  apply verdict_depends_on_truth_values.
  intros ppe Hin. unfold all_ppe, required_ppe, optional_ppe in Hin.
  simpl in Hin. set_unfold in Hin.
  destruct Hin as [->|[->|[->|[->|[->|[->|[]]]]]]]; reflexivity.
Defined.

(** With no required item absent, the status is "Partially Compliant"
    exactly when all three optional items are absent, and "Compliant"
    exactly when one of them is present: two absent optional items give
    the score 80.0, which is not below 80. *)
Theorem partially_compliant_iff d :
  ∃ c, analyze_ppe_compliance d = Ok c
       ∧ (status c = "Partially Compliant"
          ↔ existsb (absent d) required_ppe = false
            ∧ forallb (absent d) optional_ppe = true)
       ∧ (status c = "Compliant"
          ↔ existsb (absent d) required_ppe = false
            ∧ forallb (absent d) optional_ppe = false).
Proof.
  flag_cases d. intros [] [] [] [] [] []; vm_compute;
    (eexists; split; [reflexivity|]); split; split;
    try (intros [? ?]); try split; congruence.
Qed.

(** A mapping in which every item present in another is present too has at
    least the score of the other. *)
Theorem score_monotone d d' :
  (∀ ppe, ppe ∈ all_ppe → absent d' ppe = true → absent d ppe = true) →
  ∃ c c', analyze_ppe_compliance d = Ok c
          ∧ analyze_ppe_compliance d' = Ok c'
          ∧ score_le (compliance_score c) (compliance_score c') = true.
Proof.
  intros H.
  assert (Forall (λ ppe, implb (absent d' ppe) (absent d ppe) = true) all_ppe)
    as HF.
  { apply Forall_forall. intros ppe Hin. specialize (H ppe Hin).
    destruct (absent d' ppe); [by rewrite H|done]. }
  clear H. revert HF.
  rewrite (analyze_bool_flags d), (analyze_bool_flags d').
  unfold bool_flags, all_ppe, required_ppe, optional_ppe.
  cbn [fmap list_fmap app]. rewrite !Forall_cons.
  generalize (absent d "helmet"), (absent d "vest"), (absent d "gloves"),
    (absent d "goggles"), (absent d "boots"), (absent d "mask"),
    (absent d' "helmet"), (absent d' "vest"), (absent d' "gloves"),
    (absent d' "goggles"), (absent d' "boots"), (absent d' "mask").
  intros a1 a2 a3 a4 a5 a6 b1 b2 b3 b4 b5 b6 (H1 & H2 & H3 & H4 & H5 & H6 & _).
  destruct a1, b1; try discriminate H1; clear H1;
  destruct a2, b2; try discriminate H2; clear H2;
  destruct a3, b3; try discriminate H3; clear H3;
  destruct a4, b4; try discriminate H4; clear H4;
  destruct a5, b5; try discriminate H5; clear H5;
  destruct a6, b6; try discriminate H6; clear H6;
  vm_compute; do 2 eexists; repeat split.
Qed.

(** Putting a helmet on the example raises its score from 76.7 to 100. *)
Lemma score_monotone_witness :
  ∃ c c', analyze_ppe_compliance example_flags = Ok c
          ∧ analyze_ppe_compliance (int_flags 1 1 1 1 1 1) = Ok c'
          ∧ score_le (compliance_score c) (compliance_score c') = true.
Proof.
  apply score_monotone.
  intros ppe Hin. unfold all_ppe, required_ppe, optional_ppe in Hin.
  simpl in Hin. set_unfold in Hin.
  destruct Hin as [->|[->|[->|[->|[->|[->|[]]]]]]]; vm_compute; congruence.
Defined.

End Verdicts.

(* ===================================================================== *)
(** * Initialisation *)
(* ===================================================================== *)

Section Init.

Implicit Types s : store.

Lemma insert_or_ignore_lookup {A} (l : list (Z * A)) (t : gmap Z A) id :
  foldl insert_or_ignore t l !! id
  = match t !! id with
    | Some x => Some x
    | None => (list_to_map l : gmap Z A) !! id
    end.
Proof.
  revert t. induction l as [|[k x] l IH]; intros t.
  - simpl. rewrite lookup_empty. by destruct (t !! id).
  - simpl foldl. rewrite IH, list_to_map_cons.
    unfold insert_or_ignore. cbn [fst snd].
    destruct (t !! k) eqn:Hk.
    + destruct (t !! id) eqn:Hid; [done|].
      rewrite lookup_insert_ne; [done|]. intros ->. congruence.
    + destruct (decide (k = id)) as [->|Hne].
      * by rewrite Hk, !lookup_insert_eq.
      * by rewrite !lookup_insert_ne.
Qed.

(** [init_db] keeps every worker row it finds, adds the sample workers
    whose ids are free, and leaves the detections and the alerts as they
    are. *)
Theorem init_db_keeps_rows s :
  (∀ id, workers (init_db s) !! id
         = match workers s !! id with
           | Some w => Some w
           | None => (list_to_map sample_workers : gmap Z worker) !! id
           end)
  ∧ ppe_detections (init_db s) = ppe_detections s
  ∧ alerts (init_db s) = alerts s.
Proof.
  split; [|done]. intros id. apply insert_or_ignore_lookup.
Qed.

(** Running [init_db] again changes nothing. *)
Theorem init_db_idempotent s : init_db (init_db s) = init_db s.
Proof.
  destruct s as [ws ps al]. unfold init_db.
  cbn [workers ppe_detections alerts]. f_equal.
  apply map_eq. intros id. rewrite !insert_or_ignore_lookup.
  destruct (ws !! id); [done|].
  by destruct ((list_to_map sample_workers : gmap Z worker) !! id).
Qed.

End Init.

(* ===================================================================== *)
(** * The list of active alerts *)
(* ===================================================================== *)

Section ActiveAlerts.

Implicit Types s : store.

Global Instance datetime_le_total {A} (ts : A → datetime) :
  Total (λ a b : A, datetime_le (ts b) (ts a)).
Proof. intros a b. unfold datetime_le. lia. Qed.

Global Instance datetime_le_trans {A} (ts : A → datetime) :
  Transitive (λ a b : A, datetime_le (ts b) (ts a)).
Proof. intros a b c. unfold datetime_le. lia. Qed.

Lemma elem_of_order_by_desc {A} (ts : A → datetime) (l : list A) x :
  x ∈ order_by_desc ts l ↔ x ∈ l.
Proof. unfold order_by_desc. by rewrite merge_sort_Permutation. Qed.

Lemma elem_of_join_workers {A} (wid : A → Z) s (rs : list (Z * A)) r :
  r ∈ join_workers wid s rs
  ↔ r.1 ∈ rs ∧ workers s !! wid r.1.2 = Some r.2.
Proof.
  unfold join_workers. rewrite list_elem_of_omap. split.
  - intros (x & Hx & Hf). destruct (workers s !! wid x.2) eqn:E; [|done].
    simpl in Hf. by simplify_eq.
  - intros [Hr Hw]. exists r.1. split; [done|]. rewrite Hw.
    by destruct r.
Qed.

(** The ids of joined rows are ids of the rows, in their order. *)
Lemma join_workers_ids {A} (wid : A → Z) s (rs : list (Z * A)) :
  (λ r, r.1.1) <$> join_workers wid s rs `sublist_of` rs.*1.
Proof.
  unfold join_workers. induction rs as [|x rs IH]; [done|].
  simpl. destruct (workers s !! wid x.2); simpl.
  - by apply sublist_skip.
  - by apply sublist_cons.
Qed.

Lemma elem_of_active_rows s r :
  r ∈ active_rows s
  ↔ alerts s !! r.1.1 = Some r.1.2
    ∧ resolved r.1.2 = 0
    ∧ workers s !! alert_worker_id r.1.2 = Some r.2.
Proof.
  unfold active_rows.
  rewrite elem_of_order_by_desc, elem_of_join_workers, list_elem_of_filter.
  unfold Sql.rows. destruct r as [[id a] w]. simpl.
  rewrite elem_of_map_to_list. tauto.
Qed.

Lemma active_rows_NoDup s : NoDup ((λ r, r.1.1) <$> active_rows s).
Proof.
  unfold active_rows, order_by_desc. rewrite merge_sort_Permutation.
  eapply sublist_NoDup; [|apply join_workers_ids].
  eapply sublist_NoDup; [apply (NoDup_fst_map_to_list (alerts s))|].
  apply fmap_sublist, sublist_filter.
Qed.

(** The list holds exactly the alerts that are unresolved and whose worker
    has a row, each once, with the name of the worker. *)
Theorem get_alerts_lists_unresolved s :
  (∀ e, e ∈ get_alerts s
        ↔ ∃ a w, alerts s !! ae_id e = Some a
                 ∧ resolved a = 0
                 ∧ workers s !! alert_worker_id a = Some w
                 ∧ e = alert_row (ae_id e, a, w))
  ∧ NoDup (ae_id <$> get_alerts s).
Proof.
  split.
  - intros e. unfold get_alerts. rewrite list_elem_of_fmap. split.
    + intros ([[id a] w] & -> & Hr). apply elem_of_active_rows in Hr.
      destruct Hr as (Ha & Hres & Hw). by exists a, w.
    + intros (a & w & Ha & Hr & Hw & He).
      exists (ae_id e, a, w). split; [done|].
      by apply elem_of_active_rows.
  - unfold get_alerts. rewrite <- list_fmap_compose.
    apply active_rows_NoDup.
Qed.

(** The list is ordered from the newest alert to the oldest. *)
Theorem get_alerts_newest_first s :
  StronglySorted (λ e1 e2, datetime_le (ae_timestamp e2) (ae_timestamp e1))
                 (get_alerts s).
Proof.
  unfold get_alerts, active_rows, order_by_desc.
  eapply StronglySorted_fmap; [|apply StronglySorted_merge_sort; apply _].
  by intros x y.
Qed.

(** After an alert is resolved the list holds the entries it held, except
    the one of that alert. *)
Theorem resolve_removes_from_list alert_id s e :
  e ∈ get_alerts (resolve_alert alert_id s).1
  ↔ e ∈ get_alerts s ∧ ae_id e ≠ alert_id.
Proof.
  unfold get_alerts. rewrite !list_elem_of_fmap. split.
  - intros ([[id a] w] & -> & Hr). apply elem_of_active_rows in Hr.
    simpl in Hr. destruct Hr as (Ha & Hres & Hw).
    destruct (decide (id = alert_id)) as [->|Hne].
    + rewrite lookup_alter_eq in Ha.
      destruct (alerts s !! alert_id); simplify_eq/=.
    + rewrite lookup_alter_ne in Ha by done. split; [|done].
      exists (id, a, w). split; [done|]. by apply elem_of_active_rows.
  - intros [([[id a] w] & -> & Hr) Hne]. simpl in Hne.
    apply elem_of_active_rows in Hr. simpl in Hr.
    exists (id, a, w). split; [done|]. apply elem_of_active_rows. simpl.
    by rewrite lookup_alter_ne.
Qed.

Lemma length_join_workers_le {A} (wid : A → Z) s (rs : list (Z * A)) :
  (length (join_workers wid s rs) ≤ length rs)%nat.
Proof.
  unfold join_workers. induction rs as [|x rs IH]; [done|].
  csimpl. destruct (workers s !! wid x.2); csimpl; lia.
Qed.

Lemma length_join_workers_all {A} (wid : A → Z) s (rs : list (Z * A)) :
  Forall (λ r, is_Some (workers s !! wid r.2)) rs →
  length (join_workers wid s rs) = length rs.
Proof.
  unfold join_workers. induction 1 as [|x rs [w Hw] _ IH]; [done|].
  csimpl. rewrite Hw. csimpl. by rewrite IH.
Qed.

Lemma length_get_alerts s :
  length (get_alerts s)
  = length (join_workers alert_worker_id s
              (filter (λ r, resolved r.2 = 0) (Sql.rows (alerts s)))).
Proof.
  unfold get_alerts, active_rows, order_by_desc.
  by rewrite length_fmap, merge_sort_Permutation.
Qed.

(** The list is never longer than the number of unresolved alerts, and as
    long when the worker of every alert has a row. *)
Theorem get_alerts_length s :
  (length (get_alerts s) ≤ size (unresolved s))%nat
  ∧ ((∀ id a, alerts s !! id = Some a →
              is_Some (workers s !! alert_worker_id a)) →
     length (get_alerts s) = size (unresolved s)).
Proof.
  rewrite length_get_alerts. unfold unresolved.
  rewrite <- length_filter_rows. split.
  - apply length_join_workers_le.
  - intros H. apply length_join_workers_all, Forall_forall.
    intros [id a] Hin. apply list_elem_of_filter in Hin as [_ Hin].
    apply elem_of_map_to_list in Hin. by eapply H.
Qed.

(** On the store with one alert, of worker 3. *)
Lemma get_alerts_length_witness :
  length (get_alerts no_gloves_store) = size (unresolved no_gloves_store).
Proof.
  apply (get_alerts_length no_gloves_store).
  change (map_Forall
            (λ _ a, is_Some (workers no_gloves_store !! alert_worker_id a))
            (alerts no_gloves_store)).
  apply (bool_decide_unpack _). vm_compute. exact I.
Defined.

(** Resolving two alerts gives the same store in either order. *)
Theorem resolve_commutes a b s :
  (resolve_alert a (resolve_alert b s).1).1
  = (resolve_alert b (resolve_alert a s).1).1.
Proof.
  simpl. f_equal. destruct (decide (a = b)) as [->|Hne]; [done|].
  by apply alter_alter_ne.
Qed.

(** Resolving an unresolved alert lowers the number of unresolved alerts
    by one; resolving a resolved or unknown one leaves it. *)
Theorem resolve_unresolved_count alert_id s :
  size (unresolved (resolve_alert alert_id s).1)
  = match alerts s !! alert_id with
    | Some a => if decide (resolved a = 0)
                then pred (size (unresolved s))
                else size (unresolved s)
    | None => size (unresolved s)
    end.
Proof.
  unfold unresolved. simpl.
  assert (filter (λ r, resolved r.2 = 0) (alter set_resolved alert_id (alerts s))
          = delete alert_id (filter (λ r : Z * alert, resolved r.2 = 0) (alerts s)))
    as ->.
  { apply map_eq. intros k. apply option_eq. intros a.
    rewrite map_lookup_filter_Some.
    destruct (decide (k = alert_id)) as [->|Hne].
    - rewrite lookup_delete_eq, lookup_alter_eq.
      destruct (alerts s !! alert_id) as [a0|]; simpl; split;
        [intros [[= <-] Hr]; discriminate Hr|done|intros [[=] _]|done].
    - rewrite lookup_delete_ne, lookup_alter_ne by done.
      by rewrite map_lookup_filter_Some. }
  destruct (alerts s !! alert_id) as [a|] eqn:Ha.
  - case_decide as Hr.
    + rewrite map_size_delete_Some; [done|].
      exists a. by apply map_lookup_filter_Some.
    + rewrite map_size_delete_None; [done|].
      apply map_lookup_filter_None. right. intros a' Ha'. simpl. congruence.
  - rewrite map_size_delete_None; [done|].
    apply map_lookup_filter_None. by left.
Qed.

End ActiveAlerts.

(* ===================================================================== *)
(** * The dashboard, the trends and the worker list together *)
(* ===================================================================== *)

Section Statistics.

Implicit Types s : store.

Lemma percent_avg_ok (xs : list Z) :
  ∃ n, percent (Float <$> Sql.avg xs) = Ok n.
Proof.
  destruct (Sql.avg xs) as [f|]; simpl.
  - rewrite percent_float. by eexists.
  - rewrite percent_None. by eexists.
Qed.

Lemma mul_float_100 f :
  mul (Float f) (Int 100) = Ok (Float (F64.mul f (F64.of_Z 100))).
Proof. reflexivity. Qed.

(** The rate of the dashboard: a value, or an overflow of the quotient,
    never a division by zero. *)
Lemma overall_rate (c n : Z) :
  (∃ o, (if 0 <? n
         then q ← truediv (Int c) (Int n);
              p ← mul q (Int 100);
              mret (round1 p)
         else mret (Int 0)) = Ok o)
  ∨ (if 0 <? n
     then q ← truediv (Int c) (Int n);
          p ← mul q (Int 100);
          mret (round1 p)
     else mret (Int 0)) = Raise OverflowError.
Proof.
  destruct (0 <? n) eqn:Hn; [|left; by eexists].
  apply Z.ltb_lt in Hn. unfold truediv.
  destruct (n =? 0) eqn:E0; [apply Z.eqb_eq in E0; lia|].
  destruct (F64.is_finite (F64.div_Z c n)); [|by right].
  left. cbn [mbind result_bind Py.bind]. rewrite mul_float_100. by eexists.
Qed.

(** [dashboard_stats] never divides by zero, whatever the store holds. *)
Theorem dashboard_never_divides_by_zero now s :
  dashboard_stats now s ≠ Raise ZeroDivisionError.
Proof.
  unfold dashboard_stats.
  repeat match goal with
         | |- context [percent (Float <$> Sql.avg ?l)] =>
           destruct (percent_avg_ok l) as [? ->]
         end.
  cbn [mbind result_bind Py.bind].
  match goal with
  | |- context [truediv (Int ?c) (Int ?n)] =>
    destruct (overall_rate c n) as [[o Ho]| Ho]
  end; cbn [mbind result_bind Py.bind] in *; rewrite Ho; done.
Qed.

(** What [dashboard_stats] returns counts the workers, the events of
    today and the unresolved alerts. *)
Theorem dashboard_counts now s st :
  dashboard_stats now s = Ok st →
  total_workers st = Z.of_nat (size (workers s))
  ∧ today_detections st = Z.of_nat (size (events_on (dt_date now) s))
  ∧ active_alerts st = Z.of_nat (size (unresolved s)).
Proof.
  unfold dashboard_stats.
  repeat match goal with
         | |- context [percent (Float <$> Sql.avg ?l)] =>
           destruct (percent_avg_ok l) as [? ->]
         end.
  cbn [mbind result_bind Py.bind].
  match goal with
  | |- context [truediv (Int ?c) (Int ?n)] =>
    destruct (overall_rate c n) as [[o Ho]| Ho]
  end; cbn [mbind result_bind Py.bind] in *; rewrite Ho; [|done].
  intros [= <-]. cbn [total_workers today_detections active_alerts].
  rewrite count_rows. unfold unresolved, events_on.
  rewrite <- !length_filter_rows. unfold Sql.count, detections_on.
  split; [done|]. split; [|done].
  by destruct (_ =? 0) eqn:E0; [apply Z.eqb_eq in E0|].
Qed.

(** On the store with yesterday's and today's event. *)
Lemma dashboard_counts_witness :
  ∃ st, dashboard_stats stale_now stale_store = Ok st
        ∧ total_workers st = 1 ∧ today_detections st = 1
        ∧ active_alerts st = 0.
Proof.
  eexists. split; [vm_compute; reflexivity|].
  apply (dashboard_counts stale_now stale_store). vm_compute. reflexivity.
Defined.

(** The events of the seven days, day by day, are the events of the
    week. *)
Lemma week_partition (rs : list (Z * detection)) (today : Z) :
  Sql.sum ((λ i, Z.of_nat (length
              (filter (λ r, dt_date (timestamp r.2) = today - i) rs)))
           <$> [6; 5; 4; 3; 2; 1; 0])
  = Z.of_nat (length
      (filter (λ r, today - 6 ≤ dt_date (timestamp r.2) ≤ today) rs)).
Proof.
  cbn [fmap list_fmap Sql.sum foldr].
  induction rs as [|r rs IH]; [done|].
  rewrite !filter_cons.
  repeat case_decide; simpl length; lia.
Qed.

(** The seven totals of the trends add up to the number of events dated
    within the week that ends today; events of other days are counted
    nowhere. *)
Theorem trends_totals_sum now s :
  ∃ l, compliance_trends now s = Ok l
       ∧ Sql.sum (total_detections <$> l)
         = Z.of_nat (size (events_in_week (dt_date now) s)).
Proof.
  eexists. split.
  { unfold compliance_trends. apply for_each_ok, trend_day_spec. }
  change (range_down 6 (-1)) with [6; 5; 4; 3; 2; 1; 0].
  rewrite <- list_fmap_compose.
  unfold events_in_week, events_on.
  rewrite <- length_filter_rows, <- week_partition.
  apply (f_equal Sql.sum), list_fmap_ext. intros _ i _. simpl.
  by rewrite <- length_filter_rows.
Qed.

(** The last entry of the trends is today's, and its total is the number
    of today's events that the dashboard reports. *)
Theorem dashboard_today_matches_trend now s st :
  dashboard_stats now s = Ok st →
  ∃ l e, compliance_trends now s = Ok l
         ∧ last l = Some e
         ∧ date e = dt_date now
         ∧ total_detections e = today_detections st.
Proof.
  intros Hst.
  assert (today_detections st = Z.of_nat (size (events_on (dt_date now) s)))
    as ->.
  { revert Hst. unfold dashboard_stats.
    repeat match goal with
           | |- context [percent (Float <$> Sql.avg ?l)] =>
             destruct (percent_avg_ok l) as [? ->]
           end.
    cbn [mbind result_bind Py.bind].
    match goal with
    | |- context [truediv (Int ?c) (Int ?n)] =>
      destruct (overall_rate c n) as [[o Ho]| Ho]
    end; cbn [mbind result_bind Py.bind] in *; rewrite Ho; [|done].
    intros [= <-]. cbn [today_detections].
    unfold events_on. rewrite <- length_filter_rows.
    unfold Sql.count, detections_on.
    by destruct (_ =? 0) eqn:E0; [apply Z.eqb_eq in E0|]. }
  do 2 eexists. split.
  { unfold compliance_trends. apply for_each_ok, trend_day_spec. }
  change (range_down 6 (-1)) with [6; 5; 4; 3; 2; 1; 0].
  cbn [fmap list_fmap last]. split; [reflexivity|].
  cbn [date total_detections]. by rewrite Z.sub_0_r.
Qed.

Lemma dashboard_today_matches_trend_witness :
  ∃ st l e, dashboard_stats stale_now stale_store = Ok st
            ∧ compliance_trends stale_now stale_store = Ok l
            ∧ last l = Some e
            ∧ total_detections e = today_detections st.
Proof.
  eexists.
  destruct (dashboard_today_matches_trend stale_now stale_store _ eq_refl)
    as (l & e & Hl & He & _ & Ht).
  exists l, e. split; [reflexivity|]. by split; [|split].
Defined.

Lemma length_filter_disjoint {A} (P Q : A → Prop)
    `{!∀ x, Decision (P x), !∀ x, Decision (Q x)} (l : list A) :
  (∀ x, P x → Q x → False) →
  (length (filter P l) + length (filter Q l))%nat
  = length (filter (λ x, P x ∨ Q x) l).
Proof.
  intros HPQ. induction l as [|x l IH]; [done|].
  rewrite !filter_cons.
  destruct (decide (P x)), (decide (Q x)), (decide (P x ∨ Q x));
    simpl length; try lia; exfalso; first [tauto | by eapply HPQ].
Qed.

(** Counting the rows of each of some ids counts the rows of those ids. *)
Lemma sum_by_id {A B} (wid : B → Z) (ws : list (Z * A)) (rs : list B) :
  NoDup ws.*1 →
  Sql.sum ((λ w, Z.of_nat (length (filter (λ r, wid r = w.1) rs))) <$> ws)
  = Z.of_nat (length (filter (λ r, wid r ∈ ws.*1) rs)).
Proof.
  induction ws as [|w ws IH]; intros Hnd.
  - simpl. induction rs as [|r rs IHr]; [done|].
    rewrite filter_cons, decide_False; [done|]. apply not_elem_of_nil.
  - apply NoDup_cons in Hnd as [Hw Hnd].
    rewrite fmap_cons. simpl Sql.sum. rewrite IH by done.
    rewrite <- Nat2Z.inj_add, length_filter_disjoint.
    + f_equal. f_equal. apply list_filter_iff. intros r.
      rewrite fmap_cons, elem_of_cons. done.
    + intros r Hr Hin. apply Hw. by rewrite <- Hr.
Qed.

(** The totals of the entries of the workers count the events whose worker
    has a row. *)
Lemma summary_totals s :
  Sql.sum ((λ w, ws_total_detections (summary_of s w)) <$> Sql.rows (workers s))
  = Z.of_nat (size (known_worker_events s)).
Proof.
  unfold known_worker_events. rewrite <- length_filter_rows.
  transitivity
    (Sql.sum ((λ w : Z * worker,
                 Z.of_nat (length (filter (λ r : Z * detection,
                                             worker_id r.2 = w.1)
                                          (Sql.rows (ppe_detections s)))))
              <$> Sql.rows (workers s))).
  { apply (f_equal Sql.sum), list_fmap_ext. intros _ w _. simpl.
    unfold events_of. by rewrite <- length_filter_rows. }
  rewrite sum_by_id by apply NoDup_fst_map_to_list.
  do 2 f_equal. apply list_filter_iff. intros r.
  unfold Sql.rows. rewrite list_elem_of_fmap. split.
  - intros ([id w] & -> & Hin). apply elem_of_map_to_list in Hin.
    by eexists.
  - intros [w Hw]. exists (worker_id r.2, w). split; [done|].
    by apply elem_of_map_to_list.
Qed.

(** The totals of the worker list add up to the number of events whose
    worker has a row; an event of an unknown worker is counted for no
    one. *)
Theorem worker_totals_sum s :
  ∃ l, worker_compliance s = Ok l
       ∧ Sql.sum (ws_total_detections <$> l)
         = Z.of_nat (size (known_worker_events s)).
Proof.
  eexists. split; [apply for_each_ok, worker_row_spec|].
  rewrite <- list_fmap_compose. apply summary_totals.
Qed.

End Statistics.

(* ===================================================================== *)
(** * The list of recent detections *)
(* ===================================================================== *)

Section Recent.

Implicit Types s : store.

(** One turn of the loop of [recent_detections]: the analyzer never fails
    on the dict of a row, and its verdict is that of the six flags. *)
Lemma recent_row_spec iso r : recent_row iso r = Ok (entry_of r).
Proof.
  unfold recent_row, entry_of.
  rewrite (analyze_bool_flags (detection_dict iso r)).
  unfold bool_flags, all_ppe, required_ppe, optional_ppe.
  cbn [fmap list_fmap app].
  change (absent (detection_dict iso r) "helmet")
    with (negb (py_bool (helmet r.1.2))).
  change (absent (detection_dict iso r) "vest")
    with (negb (py_bool (vest r.1.2))).
  change (absent (detection_dict iso r) "gloves")
    with (negb (py_bool (gloves r.1.2))).
  change (absent (detection_dict iso r) "goggles")
    with (negb (py_bool (goggles r.1.2))).
  change (absent (detection_dict iso r) "boots")
    with (negb (py_bool (boots r.1.2))).
  change (absent (detection_dict iso r) "mask")
    with (negb (py_bool (mask r.1.2))).
  generalize (py_bool (helmet r.1.2)), (py_bool (vest r.1.2)),
    (py_bool (gloves r.1.2)), (py_bool (goggles r.1.2)),
    (py_bool (boots r.1.2)), (py_bool (mask r.1.2)).
  intros [] [] [] [] [] []; vm_compute; reflexivity.
Qed.

Lemma elem_of_recent_rows s r :
  r ∈ recent_rows s →
  ppe_detections s !! r.1.1 = Some r.1.2
  ∧ workers s !! worker_id r.1.2 = Some r.2.
Proof.
  unfold recent_rows. intros (i & Hi & _)%elem_of_take.
  apply list_elem_of_lookup_2 in Hi.
  apply elem_of_order_by_desc, elem_of_join_workers in Hi as [Hr Hw].
  split; [|done]. apply elem_of_map_to_list. by destruct r.1.
Qed.

(** [recent_detections] returns, for each row of its query, the row with
    its flags as booleans and the verdict of the rules on those flags;
    each row is a stored event together with the row of its worker. *)
Theorem recent_detections_entries iso s :
  recent_detections iso s = Ok (entry_of <$> recent_rows s)
  ∧ (∀ r, r ∈ recent_rows s →
          ppe_detections s !! r.1.1 = Some r.1.2
          ∧ workers s !! worker_id r.1.2 = Some r.2).
Proof.
  split; [|apply elem_of_recent_rows].
  apply for_each_ok, recent_row_spec.
Qed.

Lemma length_join_workers {A} (wid : A → Z) s (rs : list (Z * A)) :
  length (join_workers wid s rs)
  = length (filter (λ r, is_Some (workers s !! wid r.2)) rs).
Proof.
  unfold join_workers. induction rs as [|x rs IH]; [done|].
  csimpl. rewrite filter_cons. destruct (workers s !! wid x.2) eqn:E.
  - rewrite decide_True by by eexists. csimpl. by rewrite IH.
  - rewrite decide_False by by intros [? ?]. done.
Qed.

(** The list has twenty entries, or as many as there are events whose
    worker has a row when these are fewer. *)
Theorem recent_detections_length iso s :
  ∃ l, recent_detections iso s = Ok l
       ∧ length l = min 20 (size (known_worker_events s)).
Proof.
  eexists. split; [apply for_each_ok, recent_row_spec|].
  unfold recent_rows, order_by_desc.
  rewrite length_fmap, length_take, merge_sort_Permutation.
  rewrite length_join_workers. unfold known_worker_events.
  by rewrite length_filter_rows.
Qed.

(** The list is ordered from the newest event to the oldest, and an event
    with a known worker that is left out is no newer than any entry. *)
Theorem recent_detections_newest iso s :
  ∃ l, recent_detections iso s = Ok l
       ∧ StronglySorted
           (λ e1 e2, datetime_le (re_timestamp e2) (re_timestamp e1)) l
       ∧ ∀ e id p, e ∈ l →
                   known_worker_events s !! id = Some p →
                   id ∉ re_id <$> l →
                   datetime_le (timestamp p) (re_timestamp e).
Proof.
  eexists. split; [apply for_each_ok, recent_row_spec|].
  set (R := λ a b : Z * detection * worker,
              datetime_le (timestamp b.1.2) (timestamp a.1.2)).
  set (L := order_by_desc (λ r : Z * detection * worker, timestamp r.1.2)
              (join_workers worker_id s (Sql.rows (ppe_detections s)))).
  assert (StronglySorted R (take 20 L ++ drop 20 L)) as HS.
  { rewrite take_drop. apply StronglySorted_merge_sort; apply _. }
  apply StronglySorted_app in HS as (Hcross & Htake & _).
  change (recent_rows s) with (take 20 L). split.
  - eapply StronglySorted_fmap; [|exact Htake]. by intros x y.
  - intros e id p He Hp Hid.
    apply list_elem_of_fmap in He as (r & -> & Hr).
    apply map_lookup_filter_Some in Hp as [Hp [w Hw]]. simpl in Hw.
    assert ((id, p, w) ∈ L) as HL.
    { apply elem_of_order_by_desc, elem_of_join_workers. split; [|done].
      by apply elem_of_map_to_list. }
    rewrite <- (take_drop 20 L) in HL. apply elem_of_app in HL as [HL|HL].
    + exfalso. apply Hid. rewrite <- list_fmap_compose.
      apply list_elem_of_fmap. by exists (id, p, w).
    + apply (Hcross r (id, p, w) Hr HL).
Qed.

End Recent.

(* ===================================================================== *)
(** * The loop and the states it reaches *)
(* ===================================================================== *)

Section Generator.

Implicit Types s : store.

(** A turn inserts its event, and its alert when a required item is drawn
    absent. *)
Lemma generate_step_eq now r s :
  generate_step now r s
  = {| workers := workers s;
       ppe_detections := Sql.insert (drawn_event now r) (ppe_detections s);
       alerts := if violating r
                 then Sql.insert (drawn_alert now r) (alerts s)
                 else alerts s |}.
Proof.
  unfold generate_step, violating, drawn_event, drawn_alert.
  by destruct (draw_helmet r), (draw_vest r), (draw_gloves r).
Qed.

Lemma drawn_event_present now r :
  required_present (drawn_event now r) = negb (violating r).
Proof.
  unfold violating, required_present, drawn_event. cbn [helmet vest gloves].
  destruct (draw_helmet r), (draw_vest r), (draw_gloves r); reflexivity.
Qed.

Lemma size_filter_insert_fresh {A} (P : Z * A → Prop)
    `{!∀ x, Decision (P x)} (t : gmap Z A) k x :
  t !! k = None →
  size (filter P (<[k := x]> t))
  = (size (filter P t) + if decide (P (k, x)) then 1 else 0)%nat.
Proof.
  intros Hk. case_decide as HP.
  - rewrite map_filter_insert_True by done.
    rewrite map_size_insert_None; [lia|].
    apply map_lookup_filter_None. by left.
  - rewrite map_filter_insert_not' by (done || by rewrite Hk).
    lia.
Qed.

(** A turn at [now] adds one to the events of that day and none to the
    events of another day. *)
Theorem step_counts_event now r s day :
  size (events_on day (generate_step now r s))
  = (size (events_on day s) + if decide (day = dt_date now) then 1 else 0)%nat.
Proof.
  rewrite generate_step_eq. unfold events_on, Sql.insert.
  cbn [ppe_detections].
  rewrite size_filter_insert_fresh by apply next_rowid_fresh.
  simpl. by repeat case_decide.
Qed.

(** The loop never changes the workers, never changes or removes a stored
    event or alert, stores one event per turn and one alert per turn that
    draws a required item absent. *)
Theorem generator_keeps_rows turns s :
  workers (generate_sample_data turns s) = workers s
  ∧ (∀ k p, ppe_detections s !! k = Some p →
            ppe_detections (generate_sample_data turns s) !! k = Some p)
  ∧ (∀ k a, alerts s !! k = Some a →
            alerts (generate_sample_data turns s) !! k = Some a)
  ∧ size (ppe_detections (generate_sample_data turns s))
    = (size (ppe_detections s) + length turns)%nat
  ∧ size (alerts (generate_sample_data turns s))
    = (size (alerts s)
       + length (filter (λ t, violating t.2 = true) turns))%nat.
Proof.
  unfold generate_sample_data. revert s.
  induction turns as [|[now r] turns IH]; intros s.
  { simpl. repeat split; auto with lia. }
  simpl foldl.
  destruct (IH (generate_step now r s)) as (Hw & Hd & Ha & Hsd & Hsa).
  assert (∀ {A} (t : gmap Z A) x k y,
            t !! k = Some y → Sql.insert x t !! k = Some y) as Hkeep.
  { intros A t x k y Hk. unfold Sql.insert. rewrite lookup_insert_ne; [done|].
    intros <-. by rewrite next_rowid_fresh in Hk. }
  pose proof (generate_step_eq now r s) as E.
  set (s' := generate_step now r s) in *.
  assert (workers s' = workers s) as Ew by (by rewrite E).
  assert (ppe_detections s'
          = Sql.insert (drawn_event now r) (ppe_detections s)) as Ed
    by (by rewrite E).
  assert (alerts s' = if violating r
                      then Sql.insert (drawn_alert now r) (alerts s)
                      else alerts s) as Ea by (by rewrite E).
  clearbody s'. clear E.
  rewrite Ew in Hw. rewrite Ed in Hd, Hsd. rewrite Ea in Ha, Hsa.
  split; [done|]. split; [|split; [|split]].
  - intros k p Hk. by apply Hd, Hkeep.
  - intros k a Hk. apply Ha. destruct (violating r); [by apply Hkeep|done].
  - rewrite Hsd. unfold Sql.insert.
    rewrite map_size_insert_None by apply next_rowid_fresh.
    simpl length. lia.
  - rewrite Hsa, filter_cons. simpl.
    destruct (violating r).
    + rewrite decide_True by done. unfold Sql.insert.
      rewrite map_size_insert_None by apply next_rowid_fresh.
      simpl length. lia.
    + rewrite decide_False by done. lia.
Qed.

Lemma choices_binary b : binary (choices_1_0 b).
Proof. destruct b; [by right|by left]. Qed.

(** Every state the program reaches is well formed. *)
Lemma reachable_inv s : reachable s → well_formed s.
Proof.
  induction 1 as [|now r s _ (Hw & Hd & Ha & Hsz) Hr
                  |alert_id s _ (Hw & Hd & Ha & Hsz)
                  |s _ (Hw & Hd & Ha & Hsz)].
  - split; [by vm_compute|]. split; [apply map_Forall_empty|].
    split; [apply map_Forall_empty|]. by vm_compute.
  - rewrite generate_step_eq. unfold well_formed.
    cbn [workers ppe_detections alerts].
    split; [done|]. split; [|split].
    + apply map_Forall_insert_2; [|done]. simpl.
      split; [exact Hr|]. repeat split; apply choices_binary.
    + destruct (violating r); [|done].
      apply map_Forall_insert_2; [|done]. simpl.
      split; [exact Hr|]. split; [by left|].
      destruct (draw_helmet r); [by right|by left].
    + unfold non_compliant, Sql.insert. cbn [ppe_detections].
      rewrite size_filter_insert_fresh by apply next_rowid_fresh.
      simpl. rewrite drawn_event_present.
      fold (non_compliant s). rewrite <- Hsz.
      destruct (violating r); simpl.
      * rewrite map_size_insert_None by apply next_rowid_fresh. lia.
      * lia.
  - unfold well_formed. cbn [resolve_alert fst workers ppe_detections alerts].
    split; [done|]. split; [done|]. split.
    + intros k a Hk. destruct (decide (k = alert_id)) as [->|Hne].
      * rewrite lookup_alter_eq in Hk.
        destruct (alerts s !! alert_id) as [a0|] eqn:E; [|done].
        simpl in Hk. simplify_eq. destruct (Ha _ _ E) as (? & ? & ?).
        split; [done|]. split; [by right|done].
      * rewrite lookup_alter_ne in Hk by done. by apply (Ha k).
    + unfold non_compliant in *. cbn [ppe_detections]. rewrite <- Hsz.
      rewrite <- !size_dom. by rewrite dom_alter_L.
  - unfold well_formed, non_compliant, init_db in *.
    cbn [workers ppe_detections alerts].
    split; [|done]. apply map_eq. intros id.
    rewrite insert_or_ignore_lookup, Hw.
    by destruct ((list_to_map sample_workers : gmap Z worker) !! id).
Qed.

(** In every state the program reaches there are as many alerts, resolved
    or not, as events with a required item not present. *)
Theorem reachable_alerts_match_events s :
  reachable s → size (alerts s) = size (non_compliant s).
Proof. intros H. by apply reachable_inv in H as (_ & _ & _ & ?). Qed.

Lemma no_gloves_store_reachable : reachable no_gloves_store.
Proof.
  apply reachable_step; [apply reachable_init|].
  unfold valid_sample. simpl. lia.
Defined.

Lemma reachable_alerts_match_events_witness :
  size (alerts no_gloves_store) = 1%nat ∧ size (non_compliant no_gloves_store) = 1%nat.
Proof.
  pose proof (reachable_alerts_match_events no_gloves_store no_gloves_store_reachable)
    as H.
  split; [reflexivity|]. rewrite <- H. reflexivity.
Defined.

(** In every state the program reaches, the list of active alerts holds
    every unresolved alert. *)
Theorem reachable_alerts_all_listed s :
  reachable s → length (get_alerts s) = size (unresolved s).
Proof.
  intros (Hw & _ & Ha & _)%reachable_inv.
  rewrite length_get_alerts. unfold unresolved.
  rewrite <- length_filter_rows.
  apply length_join_workers_all, Forall_forall.
  intros [id a] Hin. apply list_elem_of_filter in Hin as [_ Hin].
  apply elem_of_map_to_list in Hin.
  destruct (Ha _ _ Hin) as (Hid & _). simpl. rewrite Hw.
  assert (alert_worker_id a = 1 ∨ alert_worker_id a = 2
          ∨ alert_worker_id a = 3 ∨ alert_worker_id a = 4
          ∨ alert_worker_id a = 5) as Hcases by lia.
  destruct Hcases as [->|[->|[->|[->| ->]]]]; by eexists.
Qed.

Lemma reachable_alerts_all_listed_witness :
  length (get_alerts no_gloves_store) = 1%nat.
Proof.
  rewrite (reachable_alerts_all_listed no_gloves_store no_gloves_store_reachable).
  reflexivity.
Defined.

(** In every state the program reaches, the three readings of a flag
    agree on every stored event: Python's truth value of the column is the
    comparison with 1 of the queries, so the events the queries count as
    compliant are those the analyzer finds no required item missing on. *)
Theorem reachable_flags_agree s id p :
  reachable s → ppe_detections s !! id = Some p →
  required_present p
  = py_bool (helmet p) && py_bool (vest p) && py_bool (gloves p)
  ∧ missing_required p = negb (required_present p).
Proof.
  intros (_ & Hd & _)%reachable_inv Hp.
  destruct (Hd _ _ Hp) as (_ & Hh & Hv & Hg & _).
  unfold required_present, missing_required, py_bool.
  by destruct Hh as [-> | ->], Hv as [-> | ->], Hg as [-> | ->].
Qed.

Lemma reachable_flags_agree_witness :
  required_present (drawn_event stale_now no_gloves_sample) = false
  ∧ missing_required (drawn_event stale_now no_gloves_sample) = true.
Proof.
  destruct (reachable_flags_agree no_gloves_store 1
              (drawn_event stale_now no_gloves_sample)
              no_gloves_store_reachable eq_refl) as [H1 H2].
  split; [exact H1|exact H2].
Defined.

(** In every state the program reaches, the worker list has the five
    sample workers and its totals add up to the number of stored events;
    the list of recent detections leaves an event out only for the limit
    of 20. *)
Theorem reachable_all_events_counted iso s :
  reachable s →
  ∃ l l', worker_compliance s = Ok l
          ∧ length l = 5%nat
          ∧ Sql.sum (ws_total_detections <$> l)
            = Z.of_nat (size (ppe_detections s))
          ∧ recent_detections iso s = Ok l'
          ∧ length l' = min 20 (size (ppe_detections s)).
Proof.
  intros (Hw & Hd & _)%reachable_inv.
  assert (known_worker_events s = ppe_detections s) as Hall.
  { unfold known_worker_events. apply map_filter_id. intros id p Hp.
    destruct (Hd _ _ Hp) as (Hid & _). simpl. rewrite Hw.
    assert (worker_id p = 1 ∨ worker_id p = 2 ∨ worker_id p = 3
            ∨ worker_id p = 4 ∨ worker_id p = 5) as Hcases by lia.
    destruct Hcases as [->|[->|[->|[->| ->]]]]; by eexists. }
  do 2 eexists. split; [apply for_each_ok, worker_row_spec|].
  split; [|split; [|split; [apply for_each_ok, recent_row_spec|]]].
  - rewrite length_fmap. unfold Sql.rows.
    rewrite length_map_to_list, Hw. reflexivity.
  - rewrite <- list_fmap_compose, <- Hall. apply summary_totals.
  - unfold recent_rows, order_by_desc.
    rewrite length_fmap, length_take, merge_sort_Permutation.
    rewrite length_join_workers, length_filter_rows.
    by fold (known_worker_events s); rewrite Hall.
Qed.

Lemma reachable_all_events_counted_witness :
  ∃ l l', worker_compliance no_gloves_store = Ok l
          ∧ length l = 5%nat
          ∧ recent_detections (λ _, "") no_gloves_store = Ok l'
          ∧ length l' = 1%nat.
Proof.
  destruct (reachable_all_events_counted (λ _, "") no_gloves_store
              no_gloves_store_reachable) as (l & l' & Hl & Hn & _ & Hl' & Hn').
  exists l, l'. split; [exact Hl|]. split; [exact Hn|].
  split; [exact Hl'|]. rewrite Hn'. reflexivity.
Defined.

End Generator.
